(** * Air-quality collector: a shallow embedding of [data_collector.py]

    The collector polls two HTTP endpoints per monitoring point, extracts a
    few fields of the decoded JSON and hands them to a storage sink.  The
    embedding keeps the shape of the Python code:

    - decoded JSON documents are Python values ([value]);
    - exceptions are values of [exception], with the class tests of the
      [except] clauses written out;
    - the outside world (the HTTP server behind [requests.get], the sink
      [insert_air_quality_data] of [database_setup], the wall clock and
      [time.sleep]) is a [World] that answers each call from the history of
      the calls made so far, and every call is appended to that history, so
      that "was called", "was not called" and "in which order" are
      statements about the history;
    - [print] only writes to the console and is left out.

    [requests.get] raises subclasses of [RequestException] only, its
    documented contract. [Response.json] rejects a body that is not JSON
    with [requests.exceptions.JSONDecodeError], which is one of them; that
    is the decoder of [json]. The decoder of the interpreter can raise
    other exceptions on a body it is sent (a [ValueError] on an integer of
    more than 4300 digits, a [RecursionError] on deep nesting), and no
    [except] clause of the fetch names them: the functions whose names end
    in [_with] are the same functions with the decoder as a parameter, and
    cover every decoder. *)

From Stdlib Require Import ZArith List String Ascii Bool PrimFloat Lia.
Import ListNotations.
Open Scope string_scope.
Open Scope list_scope.
Open Scope Z_scope.

Set Warnings "-inexact-float,-register-all".

(** ** Python values, as [json] decodes them *)

Inductive value : Type :=
| VNone
| VBool (b : bool)
| VInt (z : Z)
| VFloat (f : float)
| VStr (s : string)
| VList (l : list value)
| VDict (d : list (string * value)).

(** What stands between the brackets of a subscript. *)
Inductive key : Type :=
| KStr (s : string)
| KInt (i : Z).

(** The exception classes the code can meet, all below [Exception].
    [Timeout] is a subclass of [RequestException]; [RequestException]
    stands for every other subclass of it. *)
Inductive exception : Type :=
| Timeout (msg : string)
| RequestException (msg : string)
| KeyError (k : key)
| IndexError
| TypeError
| AttributeError
| OtherException (msg : string).

Inductive result (A : Type) : Type :=
| Return (a : A)
| Raise (e : exception).
Arguments Return {A} a.
Arguments Raise {A} e.

(** A dict decoded from JSON holds a key once; in the association list the
    first binding of a key is the dict's. *)
Fixpoint dict_lookup (d : list (string * value)) (k : string) : option value :=
  match d with
  | [] => None
  | (k', v) :: d' => if String.eqb k' k then Some v else dict_lookup d' k
  end.

(** Python's index into a sequence of length [n]: negative indices count
    from the end. *)
Definition norm_index (n : nat) (i : Z) : option nat :=
  let j := if i <? 0 then i + Z.of_nat n else i in
  if (0 <=? j) && (j <? Z.of_nat n) then Some (Z.to_nat j) else None.

(** [v[k]] *)
Definition getitem (v : value) (k : key) : result value :=
  match v, k with
  | VDict d, KStr s =>
      match dict_lookup d s with
      | Some x => Return x
      | None => Raise (KeyError k)
      end
  | VDict _, KInt _ => Raise (KeyError k)
  | VList l, KInt i =>
      match norm_index (List.length l) i with
      | Some n =>
          match nth_error l n with
          | Some x => Return x
          | None => Raise IndexError
          end
      | None => Raise IndexError
      end
  | VList _, KStr _ => Raise TypeError
  | VStr s, KInt i =>
      match norm_index (String.length s) i with
      | Some n =>
          match String.get n s with
          | Some c => Return (VStr (String c EmptyString))
          | None => Raise IndexError
          end
      | None => Raise IndexError
      end
  | VStr _, KStr _ => Raise TypeError
  | _, _ => Raise TypeError
  end.

(** [v.get(k, default)]: only dicts have the method. *)
Definition dict_get (v : value) (k : string) (default : value) : result value :=
  match v with
  | VDict d =>
      match dict_lookup d k with
      | Some x => Return x
      | None => Return default
      end
  | _ => Raise AttributeError
  end.

(** ** The data of the collector *)

Record Location : Type := {
  loc_id : string;
  loc_name : string;
  loc_lat : float;
  loc_lon : float
}.

Record AirQualityCollector : Type := {
  api_key : string;
  base_url : string;
  locations : list Location
}.

(** The keyword arguments of [insert_air_quality_data]. *)
Record MeasurementRecord : Type := {
  location_id : string;
  location_name : string;
  lat : float;
  lon : float;
  timestamp : string;
  pm2_5 : value;
  pm10 : value;
  o3 : value;
  no2 : value;
  aqi : value;
  temp : value;
  humidity : value;
  pressure : value;
  wind_speed : value
}.

(** The dict [get_air_quality_data] returns: either
    [{'air_quality': .., 'weather': .., 'success': True}] or
    [{'success': False, 'error': ..}]. *)
Inductive api_data : Type :=
| ApiSuccess (air_quality weather : value)
| ApiFailure (error : string).

Definition success (d : api_data) : bool :=
  match d with
  | ApiSuccess _ _ => true
  | ApiFailure _ => false
  end.

(** [api_data[k]] *)
Definition api_getitem (d : api_data) (k : string) : result value :=
  match d with
  | ApiSuccess a w =>
      if String.eqb k "air_quality" then Return a
      else if String.eqb k "weather" then Return w
      else if String.eqb k "success" then Return (VBool true)
      else Raise (KeyError (KStr k))
  | ApiFailure err =>
      if String.eqb k "success" then Return (VBool false)
      else if String.eqb k "error" then Return (VStr err)
      else Raise (KeyError (KStr k))
  end.

(** ** The outside world *)

Inductive param : Type :=
| PFloat (f : float)
| PStr (s : string).

Record Request : Type := {
  url : string;
  params : list (string * param);
  timeout : Z
}.

(** The body of an HTTP response: it decodes as JSON or it does not. *)
Inductive body : Type :=
| ValidJSON (j : value)
| InvalidJSON (msg : string).

Record Response : Type := {
  status_code : Z;
  content : body
}.

(** How one [requests.get] ends. *)
Inductive get_outcome : Type :=
| GetTimeout (msg : string)
| GetFailed (msg : string)
| GetResponse (r : Response).

Inductive event : Type :=
| EvGet (req : Request) (out : get_outcome)
| EvNow (iso : string)
| EvInsert (rec : MeasurementRecord) (out : result bool)
| EvSleep (seconds : Z).

Definition trace : Type := list event.

(** The world answers from the history: two calls with the same arguments
    may be answered differently. The sink returns a truth value or raises. *)
Record World : Type := {
  http_get : trace -> Request -> get_outcome;
  sink_insert : trace -> MeasurementRecord -> result bool;
  utc_now : trace -> string
}.

(** ** Computations

    A computation reads the history so far and answers with a result, or
    an exception, and the events it appends to the history. *)

Definition M (A : Type) : Type := trace -> result A * list event.

Definition ret {A} (a : A) : M A := fun _ => (Return a, []).

Definition raise {A} (e : exception) : M A := fun _ => (Raise e, []).

Definition bind {A B} (m : M A) (k : A -> M B) : M B :=
  fun t =>
    match m t with
    | (Return a, evs) =>
        let (r, evs') := k a (t ++ evs) in (r, evs ++ evs')
    | (Raise e, evs) => (Raise e, evs)
    end.

(** A computation without effects. *)
Definition lift {A} (r : result A) : M A := fun _ => (r, []).

(** [try: body except ..: handler]; the handler answers [None] for an
    exception that no [except] clause matches. *)
Definition try_except {A} (body : M A) (handler : exception -> option (M A)) : M A :=
  fun t =>
    match body t with
    | (Return a, evs) => (Return a, evs)
    | (Raise e, evs) =>
        match handler e with
        | Some h => let (r, evs') := h (t ++ evs) in (r, evs ++ evs')
        | None => (Raise e, evs)
        end
    end.

Declare Scope py_scope.
Delimit Scope py_scope with py.
Notation "x <- m ;; k" := (bind m (fun x => k))
  (at level 61, m at next level, right associativity) : py_scope.
Notation "m ;;; k" := (bind m (fun _ => k))
  (at level 61, right associativity) : py_scope.
Open Scope py_scope.

Definition requests_get (w : World) (u : string) (ps : list (string * param))
  (tmo : Z) : M Response :=
  fun t =>
    let req := {| url := u; params := ps; timeout := tmo |} in
    let out := http_get w t req in
    (match out with
     | GetTimeout msg => Raise (Timeout msg)
     | GetFailed msg => Raise (RequestException msg)
     | GetResponse r => Return r
     end, [EvGet req out]).

(** [response.json()], for a decoder that answers what the body denotes
    and rejects a body that is not JSON with a [JSONDecodeError]; see
    [get_air_quality_data_with] for any decoder. *)
Definition json (r : Response) : M value :=
  match content r with
  | ValidJSON j => ret j
  | InvalidJSON msg => raise (RequestException msg)
  end.

(** [datetime.now(timezone.utc).isoformat()] *)
Definition now_utc_isoformat (w : World) : M string :=
  fun t => let iso := utc_now w t in (Return iso, [EvNow iso]).

Definition insert_air_quality_data (w : World) (rec : MeasurementRecord) : M bool :=
  fun t => let out := sink_insert w t rec in (out, [EvInsert rec out]).

(** [time.sleep(seconds)] *)
Definition time_sleep (seconds : Z) : M unit :=
  fun _ => (Return tt, [EvSleep seconds]).

(** ** The collector *)

Definition __init__ (key : string) : AirQualityCollector :=
  {| api_key := key;
     base_url := "https://api.openweathermap.org/data/2.5";
     locations :=
       [ {| loc_id := "aguachica_general"; loc_name := "Aguachica - Vista General";
            loc_lat := 8.312; loc_lon := -73.626 |};
         {| loc_id := "parque_central"; loc_name := "Parque Central";
            loc_lat := 8.310675833008426; loc_lon := -73.62363665855918 |};
         {| loc_id := "universidad"; loc_name := "Universidad Popular del Cesar";
            loc_lat := 8.314789098234467; loc_lon := -73.59638568793966 |};
         {| loc_id := "parque_morrocoy"; loc_name := "Parque Morrocoy";
            loc_lat := 8.310373774726447; loc_lon := -73.61670782048647 |};
         {| loc_id := "patinodromo"; loc_name := "Patinódromo";
            loc_lat := 8.297149888853758; loc_lon := -73.62335200184627 |};
         {| loc_id := "ciudadela_paz"; loc_name := "Ciudadela de la Paz";
            loc_lat := 8.312099985681844; loc_lon := -73.63467832511535 |};
         {| loc_id := "bosque"; loc_name := "Bosque";
            loc_lat := 8.312303609676293; loc_lon := -73.61448867800057 |};
         {| loc_id := "estadio"; loc_name := "Estadio";
            loc_lat := 8.30159931733102; loc_lon := -73.622763654179 |} ] |}.

Definition air_url (self : AirQualityCollector) : string :=
  (base_url self ++ "/air_pollution")%string.

Definition air_params (self : AirQualityCollector) (lat lon : float)
  : list (string * param) :=
  [("lat", PFloat lat); ("lon", PFloat lon); ("appid", PStr (api_key self))].

Definition weather_url (self : AirQualityCollector) : string :=
  (base_url self ++ "/weather")%string.

Definition weather_params (self : AirQualityCollector) (lat lon : float)
  : list (string * param) :=
  [("lat", PFloat lat); ("lon", PFloat lon); ("appid", PStr (api_key self));
   ("units", PStr "metric")].

Definition get_air_quality_data (w : World) (self : AirQualityCollector)
  (lat lon : float) : M api_data :=
  try_except
    (air_response <- requests_get w (air_url self) (air_params self lat lon) 10 ;;
     weather_response <-
       requests_get w (weather_url self) (weather_params self lat lon) 10 ;;
     if (status_code air_response =? 200) && (status_code weather_response =? 200)
     then
       air_data <- json air_response ;;
       weather_data <- json weather_response ;;
       ret (ApiSuccess air_data weather_data)
     else ret (ApiFailure "API request failed"))
    (fun e =>
       match e with
       | Timeout _ => Some (ret (ApiFailure "Timeout"))
       | RequestException msg => Some (ret (ApiFailure msg))
       | _ => None
       end).

Definition process_and_save_data (w : World) (location : Location)
  (data : api_data) : M bool :=
  try_except
    (air_quality <- lift (api_getitem data "air_quality") ;;
     weather <- lift (api_getitem data "weather") ;;
     list0 <- lift (getitem air_quality (KStr "list")) ;;
     first0 <- lift (getitem list0 (KInt 0)) ;;
     components <- lift (getitem first0 (KStr "components")) ;;
     list1 <- lift (getitem air_quality (KStr "list")) ;;
     first1 <- lift (getitem list1 (KInt 0)) ;;
     main1 <- lift (getitem first1 (KStr "main")) ;;
     aqi <- lift (getitem main1 (KStr "aqi")) ;;
     main2 <- lift (getitem weather (KStr "main")) ;;
     temp <- lift (getitem main2 (KStr "temp")) ;;
     main3 <- lift (getitem weather (KStr "main")) ;;
     humidity <- lift (getitem main3 (KStr "humidity")) ;;
     main4 <- lift (getitem weather (KStr "main")) ;;
     pressure <- lift (getitem main4 (KStr "pressure")) ;;
     wind <- lift (dict_get weather "wind" (VDict [])) ;;
     wind_speed <- lift (dict_get wind "speed" VNone) ;;
     timestamp <- now_utc_isoformat w ;;
     pm2_5 <- lift (dict_get components "pm2_5" VNone) ;;
     pm10 <- lift (dict_get components "pm10" VNone) ;;
     o3 <- lift (dict_get components "o3" VNone) ;;
     no2 <- lift (dict_get components "no2" VNone) ;;
     ok <- insert_air_quality_data w
             {| location_id := loc_id location;
                location_name := loc_name location;
                lat := loc_lat location;
                lon := loc_lon location;
                timestamp := timestamp;
                pm2_5 := pm2_5; pm10 := pm10; o3 := o3; no2 := no2;
                aqi := aqi; temp := temp; humidity := humidity;
                pressure := pressure; wind_speed := wind_speed |} ;;
     if ok then ret true else ret false)
    (fun _ => Some (ret false)).

(** The [for] loop of [collect_all_locations], with its two counters. *)
Fixpoint collect_loop (w : World) (self : AirQualityCollector)
  (locs : list Location) (successful failed : Z) : M (Z * Z) :=
  match locs with
  | [] => ret (successful, failed)
  | location :: rest =>
      data <- get_air_quality_data w self (loc_lat location) (loc_lon location) ;;
      counters <-
        (if success data
         then
           saved <- process_and_save_data w location data ;;
           if saved then ret (successful + 1, failed)
           else ret (successful, failed + 1)
         else ret (successful, failed + 1)) ;;
      time_sleep 2 ;;;
      collect_loop w self rest (fst counters) (snd counters)
  end.

Definition collect_all_locations (w : World) (self : AirQualityCollector)
  : M (Z * Z) :=
  collect_loop w self (locations self) 0 0.

Definition collect_single_location (w : World) (self : AirQualityCollector)
  (id : string) : M bool :=
  match find (fun loc => String.eqb (loc_id loc) id) (locations self) with
  | None => ret false
  | Some location =>
      data <- get_air_quality_data w self (loc_lat location) (loc_lon location) ;;
      if success data
      then process_and_save_data w location data
      else ret false
  end.


(** ** Reading a history *)

(** The records handed to the sink, oldest first. *)
Fixpoint inserted (evs : list event) : list MeasurementRecord :=
  match evs with
  | [] => []
  | EvInsert r _ :: evs' => r :: inserted evs'
  | _ :: evs' => inserted evs'
  end.

(** The HTTP requests issued, oldest first. *)
Fixpoint requested (evs : list event) : list Request :=
  match evs with
  | [] => []
  | EvGet req _ :: evs' => req :: requested evs'
  | _ :: evs' => requested evs'
  end.

(** The pauses taken, oldest first. *)
Fixpoint pauses (evs : list event) : list Z :=
  match evs with
  | [] => []
  | EvSleep n :: evs' => n :: pauses evs'
  | _ :: evs' => pauses evs'
  end.

(** The truth value of what the sink answered; false when it raised. *)
Definition accepted (out : result bool) : bool :=
  match out with
  | Return true => true
  | _ => false
  end.

Definition air_request (self : AirQualityCollector) (lat lon : float) : Request :=
  {| url := air_url self; params := air_params self lat lon; timeout := 10 |}.

Definition weather_request (self : AirQualityCollector) (lat lon : float) : Request :=
  {| url := weather_url self; params := weather_params self lat lon; timeout := 10 |}.

(** How the pollution call of a fetch started at history [t] ends. *)
Definition pollution_outcome (w : World) (self : AirQualityCollector)
  (lat lon : float) (t : trace) : get_outcome :=
  http_get w t (air_request self lat lon).

(** How the weather call that follows it ends. *)
Definition weather_outcome (w : World) (self : AirQualityCollector)
  (lat lon : float) (t : trace) : get_outcome :=
  http_get w
    (t ++ [EvGet (air_request self lat lon) (pollution_outcome w self lat lon t)])
    (weather_request self lat lon).

Definition status_is_200 (o : get_outcome) : bool :=
  match o with
  | GetResponse r => status_code r =? 200
  | _ => false
  end.

(** The decoded body of a response, when there is a response and its body
    is JSON. *)
Definition decoded (o : get_outcome) : option value :=
  match o with
  | GetResponse r =>
      match content r with
      | ValidJSON j => Some j
      | InvalidJSON _ => None
      end
  | _ => None
  end.

(** ** Reading a payload *)

(** The value under key [k] of a JSON object. *)
Definition field (v : value) (k : string) : option value :=
  match v with
  | VDict d => dict_lookup d k
  | _ => None
  end.

(** The first entry of the pollution payload's list. *)
Definition first_entry (payload : value) : option value :=
  match field payload "list" with
  | Some (VList (e :: _)) => Some e
  | _ => None
  end.

(** The air-quality index of an entry. *)
Definition index_field (entry : value) : option value :=
  match field entry "main" with
  | Some m => field m "aqi"
  | None => None
  end.

(** The component concentrations of an entry. *)
Definition components_of (entry : value) : option (list (string * value)) :=
  match field entry "components" with
  | Some (VDict c) => Some c
  | _ => None
  end.

(** A field of the weather payload's main section. *)
Definition weather_main (payload : value) (k : string) : option value :=
  match field payload "main" with
  | Some m => field m k
  | None => None
  end.

Definition value_or_none (o : option value) : value :=
  match o with
  | Some v => v
  | None => VNone
  end.

(** The wind speed of a weather payload whose wind section is absent or an
    object. *)
Definition wind_speed_of (payload : value) : option value :=
  match payload with
  | VDict d =>
      match dict_lookup d "wind" with
      | None => Some VNone
      | Some (VDict wd) => Some (value_or_none (dict_lookup wd "speed"))
      | Some _ => None
      end
  | _ => None
  end.

Definition present (o : option value) : bool :=
  match o with
  | Some _ => true
  | None => false
  end.

(** A pollution payload with every field the collector reads. *)
Definition complete_pollution (payload : value) : bool :=
  match first_entry payload with
  | Some e =>
      match components_of e with
      | Some c =>
          present (index_field e)
          && present (dict_lookup c "pm2_5") && present (dict_lookup c "pm10")
          && present (dict_lookup c "o3") && present (dict_lookup c "no2")
      | None => false
      end
  | None => false
  end.

(** A weather payload with every field the collector reads. *)
Definition complete_weather (payload : value) : bool :=
  present (weather_main payload "temp")
  && present (weather_main payload "humidity")
  && present (weather_main payload "pressure")
  && match field payload "wind" with
     | Some wd => present (field wd "speed")
     | None => false
     end.

Definition with_timestamp (iso : string) (r : MeasurementRecord) : MeasurementRecord :=
  {| location_id := location_id r;
     location_name := location_name r;
     lat := lat r;
     lon := lon r;
     timestamp := iso;
     pm2_5 := pm2_5 r; pm10 := pm10 r; o3 := o3 r; no2 := no2 r;
     aqi := aqi r; temp := temp r; humidity := humidity r;
     pressure := pressure r; wind_speed := wind_speed r |}.

(** ** Reading a run *)

(** [iteration w self h location chunk ok]: started at history [h], the
    turn of the loop for [location] emits [chunk] and classifies the
    location as [ok]. *)
Definition iteration (w : World) (self : AirQualityCollector) (h : trace)
  (location : Location) (chunk : list event) (ok : bool) : Prop :=
  exists d fetch store,
    get_air_quality_data w self (loc_lat location) (loc_lon location) h =
      (Return d, fetch)
    /\ chunk = fetch ++ store ++ [EvSleep 2]
    /\ if success d
       then process_and_save_data w location d (h ++ fetch) = (Return ok, store)
       else store = [] /\ ok = false.

(** The events of a run, cut into one chunk per location in the order of
    the registry; [P] holds of every turn, [oks] lists the classifications. *)
Inductive iterations (P : trace -> Location -> list event -> bool -> Prop)
  : trace -> list Location -> list event -> list bool -> Prop :=
| iterations_nil h : iterations P h [] [] []
| iterations_cons h location rest chunk ok evs oks :
    P h location chunk ok ->
    iterations P (h ++ chunk) rest evs oks ->
    iterations P h (location :: rest) (chunk ++ evs) (ok :: oks).

Definition count_true (oks : list bool) : Z :=
  Z.of_nat (List.length (filter (fun b => b) oks)).

Definition count_false (oks : list bool) : Z :=
  Z.of_nat (List.length (filter negb oks)).



(** ** Sample worlds *)

Definition sample_pollution : value :=
  VDict
    [("coord", VDict [("lon", VFloat (-73.626)); ("lat", VFloat 8.312)]);
     ("list",
      VList
        [VDict
           [("main", VDict [("aqi", VInt 2)]);
            ("components",
             VDict
               [("co", VFloat 220.5); ("no", VFloat 0.25); ("no2", VFloat 0.75);
                ("o3", VFloat 68.5); ("so2", VFloat 0.5); ("pm2_5", VFloat 4.5);
                ("pm10", VFloat 6.25); ("nh3", VFloat 0.125)]);
            ("dt", VInt 1735689600)]])].

Definition sample_weather : value :=
  VDict
    [("main",
      VDict [("temp", VFloat 28.5); ("humidity", VInt 70); ("pressure", VInt 1012)]);
     ("wind", VDict [("speed", VFloat 3.5); ("deg", VInt 40)]);
     ("name", VStr "Aguachica")].

(** The pollution payload without the [pm2_5] component. *)
Definition pollution_without_pm2_5 : value :=
  VDict
    [("list",
      VList
        [VDict
           [("main", VDict [("aqi", VInt 2)]);
            ("components",
             VDict [("no2", VFloat 0.75); ("o3", VFloat 68.5); ("pm10", VFloat 6.25)])]])].

(** The pollution payload without the index. *)
Definition pollution_without_aqi : value :=
  VDict
    [("list",
      VList
        [VDict
           [("main", VDict []);
            ("components", VDict [("pm2_5", VFloat 4.5); ("pm10", VFloat 6.25)])]])].

Definition ok_response (j : value) : get_outcome :=
  GetResponse {| status_code := 200; content := ValidJSON j |}.

(** Both endpoints answer 200 with complete payloads; the sink accepts. *)
Definition w_complete : World :=
  {| http_get := fun _ req =>
       if String.eqb (url req) "https://api.openweathermap.org/data/2.5/air_pollution"
       then ok_response sample_pollution
       else ok_response sample_weather;
     sink_insert := fun _ _ => Return true;
     utc_now := fun _ => "2025-01-01T00:00:00+00:00" |}.

(** Every request times out. *)
Definition w_down : World :=
  {| http_get := fun _ _ => GetTimeout "Read timed out. (read timeout=10)";
     sink_insert := fun _ _ => Return true;
     utc_now := fun _ => "2025-01-01T00:00:00+00:00" |}.

(** Both endpoints answer 200 with a body that is not JSON. *)
Definition w_html : World :=
  {| http_get := fun _ _ =>
       GetResponse
         {| status_code := 200;
            content := InvalidJSON "Expecting value: line 1 column 1 (char 0)" |};
     sink_insert := fun _ _ => Return true;
     utc_now := fun _ => "2025-01-01T00:00:00+00:00" |}.

(** A registry of two points. *)
Definition two_points : AirQualityCollector :=
  {| api_key := "key";
     base_url := "https://api.openweathermap.org/data/2.5";
     locations :=
       [ {| loc_id := "aguachica_general"; loc_name := "Aguachica - Vista General";
            loc_lat := 8.312; loc_lon := -73.626 |};
         {| loc_id := "parque_central"; loc_name := "Parque Central";
            loc_lat := 8.310675833008426; loc_lon := -73.62363665855918 |} ] |}.

(** As [w_complete], but the fourth request of the run times out. *)
Definition w_fourth_times_out : World :=
  {| http_get := fun t req =>
       if Nat.eqb (List.length (requested t)) 3
       then GetTimeout "Read timed out. (read timeout=10)"
       else http_get w_complete t req;
     sink_insert := fun _ _ => Return true;
     utc_now := fun _ => "2025-01-01T00:00:00+00:00" |}.

(** The world answers every request of [self] with status 200 and a
    complete payload of the endpoint asked. *)
Definition answers_complete (w : World) (self : AirQualityCollector) : Prop :=
  forall t lat lon,
    (exists j, http_get w t (air_request self lat lon) = ok_response j
               /\ complete_pollution j = true)
    /\ (exists j, http_get w t (weather_request self lat lon) = ok_response j
                  /\ complete_weather j = true).

Definition sink_accepts (w : World) : Prop :=
  forall t r, sink_insert w t r = Return true.

(** A fetch that succeeds exactly when both calls come back with status
    200. *)
Definition succeeds_iff_both_200 (w : World) (self : AirQualityCollector)
  (lat lon : float) (t : trace) : Prop :=
  exists d evs,
    get_air_quality_data w self lat lon t = (Return d, evs)
    /\ (success d = true <->
        status_is_200 (pollution_outcome w self lat lon t) = true
        /\ status_is_200 (weather_outcome w self lat lon t) = true).


(** ** Further readers and sample worlds *)

(** A call that came back with a response, of whatever status. *)
Definition responded (o : get_outcome) : bool :=
  match o with
  | GetResponse _ => true
  | _ => false
  end.

(** The number of calls of the sink that it answered with True. *)
Fixpoint accepted_inserts (evs : list event) : nat :=
  match evs with
  | [] => O
  | EvInsert _ out :: evs' =>
      if accepted out then S (accepted_inserts evs') else accepted_inserts evs'
  | _ :: evs' => accepted_inserts evs'
  end.

Definition weather_endpoint : string :=
  "https://api.openweathermap.org/data/2.5/weather".

(** The pollution endpoint answers 200; the weather endpoint answers 503. *)
Definition w_weather_503 : World :=
  {| http_get := fun _ req =>
       if String.eqb (url req) weather_endpoint
       then GetResponse {| status_code := 503;
                           content := InvalidJSON "Expecting value: line 1 column 1 (char 0)" |}
       else ok_response sample_pollution;
     sink_insert := fun _ _ => Return true;
     utc_now := fun _ => "2025-01-01T00:00:00+00:00" |}.

(** The pollution endpoint answers 404; the weather endpoint times out. *)
Definition w_weather_times_out : World :=
  {| http_get := fun _ req =>
       if String.eqb (url req) weather_endpoint
       then GetTimeout "Read timed out. (read timeout=10)"
       else GetResponse {| status_code := 404;
                           content := ValidJSON (VDict [("cod", VStr "404")]) |};
     sink_insert := fun _ _ => Return true;
     utc_now := fun _ => "2025-01-01T00:00:00+00:00" |}.

(** The pollution endpoint answers 200; the connection to the weather
    endpoint is refused. *)
Definition w_weather_refused : World :=
  {| http_get := fun _ req =>
       if String.eqb (url req) weather_endpoint
       then GetFailed "Connection refused"
       else ok_response sample_pollution;
     sink_insert := fun _ _ => Return true;
     utc_now := fun _ => "2025-01-01T00:00:00+00:00" |}.


(** A pollution payload whose list is empty. *)
Definition pollution_empty_list : value :=
  VDict [("coord", VDict [("lon", VFloat (-73.626)); ("lat", VFloat 8.312)]);
         ("list", VList [])].

(** A pollution payload whose components are null. *)
Definition pollution_null_components : value :=
  VDict
    [("list",
      VList [VDict [("main", VDict [("aqi", VInt 2)]); ("components", VNone)]])].

(** A weather payload without humidity. *)
Definition weather_without_humidity : value :=
  VDict
    [("main", VDict [("temp", VFloat 28.5); ("pressure", VInt 1012)]);
     ("wind", VDict [("speed", VFloat 3.5)])].

(** A weather payload whose wind section is null. *)
Definition weather_null_wind : value :=
  VDict
    [("main",
      VDict [("temp", VFloat 28.5); ("humidity", VInt 70); ("pressure", VInt 1012)]);
     ("wind", VNone)].

(** [two_points], cut in two registries of one point. *)
Definition first_point : AirQualityCollector :=
  {| api_key := "key";
     base_url := "https://api.openweathermap.org/data/2.5";
     locations :=
       [ {| loc_id := "aguachica_general"; loc_name := "Aguachica - Vista General";
            loc_lat := 8.312; loc_lon := -73.626 |} ] |}.

Definition second_point : AirQualityCollector :=
  {| api_key := "key";
     base_url := "https://api.openweathermap.org/data/2.5";
     locations :=
       [ {| loc_id := "parque_central"; loc_name := "Parque Central";
            loc_lat := 8.310675833008426; loc_lon := -73.62363665855918 |} ] |}.

(** ** Where [main] takes the API key from *)

(** [bool(v)] *)
Definition truthy (v : value) : bool :=
  match v with
  | VNone => false
  | VBool b => b
  | VInt z => negb (z =? 0)
  | VFloat f => negb (PrimFloat.eqb f 0%float)
  | VStr s => negb (String.eqb s "")
  | VList l => match l with [] => false | _ => true end
  | VDict d => match d with [] => false | _ => true end
  end.

(** What [open('config.json', 'r')] finds. *)
Inductive config_file : Type :=
| FileNotFound
| FileUnreadable (msg : string)
| FileContent (b : body).

(** What [main] reads: the environment variable [OPENWEATHER_API_KEY]
    and the file [config.json]. *)
Record Env : Type := {
  getenv_key : option string;
  config_json : config_file
}.

(** The first part of [main], up to the construction of the collector:
    the key the collector is built with, or [None] when [main] returns
    without building one. [json.load] raises a [ValueError] on a body that
    is not JSON and [open] raises an [OSError] other than
    [FileNotFoundError] on a file it cannot read; neither is caught. *)
Definition main_api_key (env : Env) : result (option value) :=
  let api_key :=
    match getenv_key env with
    | Some s => VStr s
    | None => VNone
    end in
  let looked_up :=
    if negb (truthy api_key)
    then
      match config_json env with
      | FileNotFound => Return api_key
      | FileUnreadable msg => Raise (OtherException msg)
      | FileContent (InvalidJSON msg) => Raise (OtherException msg)
      | FileContent (ValidJSON config) => dict_get config "openweather_api_key" VNone
      end
    else Return api_key in
  match looked_up with
  | Raise e => Raise e
  | Return api_key => if negb (truthy api_key) then Return None else Return (Some api_key)
  end.

(** ** The collector, with the decoder as a parameter *)

(** What [response.json()] does with a response: it answers a value or it
    raises, and what it raises need not be a [RequestException]. *)
Definition Decoder : Type := Response -> result value.

(** The decoder of [json]. *)
Definition contract_decoder : Decoder :=
  fun r =>
    match content r with
    | ValidJSON j => Return j
    | InvalidJSON msg => Raise (RequestException msg)
    end.

(** A decoder with the interpreter's limit on integers: a document that is
    one integer of more than 4300 digits makes it raise a [ValueError]
    that is not a [JSONDecodeError], and [requests] does not wrap it. *)
Definition limited_decoder : Decoder :=
  fun r =>
    match content r with
    | ValidJSON (VInt z) =>
        if 10 ^ 4300 <=? Z.abs z
        then Raise (OtherException
                      "Exceeds the limit (4300 digits) for integer string conversion")
        else Return (VInt z)
    | ValidJSON j => Return j
    | InvalidJSON msg => Raise (RequestException msg)
    end.

(** What the [except] clauses of the fetch make of an exception raised in
    its [try] block. *)
Definition fetch_except (e : exception) : result api_data :=
  match e with
  | Timeout _ => Return (ApiFailure "Timeout")
  | RequestException msg => Return (ApiFailure msg)
  | _ => Raise e
  end.

(** The exceptions that the fetch catches. *)
Definition caught_by_fetch (e : exception) : bool :=
  match e with
  | Timeout _ | RequestException _ => true
  | _ => false
  end.

Definition get_air_quality_data_with (dec : Decoder) (w : World)
  (self : AirQualityCollector) (lat lon : float) : M api_data :=
  try_except
    (air_response <- requests_get w (air_url self) (air_params self lat lon) 10 ;;
     weather_response <-
       requests_get w (weather_url self) (weather_params self lat lon) 10 ;;
     if (status_code air_response =? 200) && (status_code weather_response =? 200)
     then
       air_data <- lift (dec air_response) ;;
       weather_data <- lift (dec weather_response) ;;
       ret (ApiSuccess air_data weather_data)
     else ret (ApiFailure "API request failed"))
    (fun e =>
       match e with
       | Timeout _ => Some (ret (ApiFailure "Timeout"))
       | RequestException msg => Some (ret (ApiFailure msg))
       | _ => None
       end).

Fixpoint collect_loop_with (dec : Decoder) (w : World) (self : AirQualityCollector)
  (locs : list Location) (successful failed : Z) : M (Z * Z) :=
  match locs with
  | [] => ret (successful, failed)
  | location :: rest =>
      data <- get_air_quality_data_with dec w self
                (loc_lat location) (loc_lon location) ;;
      counters <-
        (if success data
         then
           saved <- process_and_save_data w location data ;;
           if saved then ret (successful + 1, failed)
           else ret (successful, failed + 1)
         else ret (successful, failed + 1)) ;;
      time_sleep 2 ;;;
      collect_loop_with dec w self rest (fst counters) (snd counters)
  end.

Definition collect_all_locations_with (dec : Decoder) (w : World)
  (self : AirQualityCollector) : M (Z * Z) :=
  collect_loop_with dec w self (locations self) 0 0.

Definition collect_single_location_with (dec : Decoder) (w : World)
  (self : AirQualityCollector) (id : string) : M bool :=
  match find (fun loc => String.eqb (loc_id loc) id) (locations self) with
  | None => ret false
  | Some location =>
      data <- get_air_quality_data_with dec w self
                (loc_lat location) (loc_lon location) ;;
      if success data
      then process_and_save_data w location data
      else ret false
  end.

(** The pollution endpoint answers 200 with a body that is one integer of
    4301 digits; the weather endpoint answers as in [w_complete]. *)
Definition w_huge_integer : World :=
  {| http_get := fun _ req =>
       if String.eqb (url req) weather_endpoint
       then ok_response sample_weather
       else ok_response (VInt (10 ^ 4300));
     sink_insert := fun _ _ => Return true;
     utc_now := fun _ => "2025-01-01T00:00:00+00:00" |}.

(** * Facts *)

(** ** Histories *)

Lemma inserted_app (a b : list event) : inserted (a ++ b) = inserted a ++ inserted b.
Proof.
  induction a as [|e a IH]; [reflexivity|].
  destruct e; cbn; rewrite IH; reflexivity.
Qed.

Lemma pauses_app (a b : list event) : pauses (a ++ b) = pauses a ++ pauses b.
Proof.
  induction a as [|e a IH]; [reflexivity|].
  destruct e; cbn; rewrite IH; reflexivity.
Qed.




(** ** Sequencing *)

Lemma bind_return {A B} (m : M A) (k : A -> M B) t a evs :
  m t = (Return a, evs) ->
  bind m k t = (fst (k a (t ++ evs)), evs ++ snd (k a (t ++ evs))).
Proof. intros H. unfold bind. rewrite H. destruct (k a (t ++ evs)); reflexivity. Qed.

Lemma bind_lift_return {A B} (a : A) (k : A -> M B) t :
  bind (lift (Return a)) k t = k a t.
Proof.
  unfold bind, lift. rewrite app_nil_r. destruct (k a t); reflexivity.
Qed.

Lemma bind_lift_raise {A B} (e : exception) (k : A -> M B) t :
  bind (lift (Raise e)) k t = (Raise e, []).
Proof. reflexivity. Qed.

Lemma bind_time_sleep {B} (n : Z) (m : M B) t :
  bind (time_sleep n) (fun _ => m) t =
    (fst (m (t ++ [EvSleep n])), EvSleep n :: snd (m (t ++ [EvSleep n]))).
Proof. unfold bind, time_sleep. destruct (m (t ++ [EvSleep n])); reflexivity. Qed.

(** ** Subscripts *)

Lemma field_getitem v k x :
  field v k = Some x -> getitem v (KStr k) = Return x.
Proof.
  destruct v; cbn; try discriminate.
  intros ->. reflexivity.
Qed.

Lemma first_entry_getitem payload e :
  first_entry payload = Some e ->
  exists l, getitem payload (KStr "list") = Return l
            /\ getitem l (KInt 0) = Return e.
Proof.
  unfold first_entry.
  destruct (field payload "list") as [[| | | | |[|x l]|]|] eqn:F; try discriminate.
  intros [= ->]. exists (VList (e :: l)). split.
  - apply field_getitem, F.
  - reflexivity.
Qed.

Lemma components_of_getitem e c :
  components_of e = Some c -> getitem e (KStr "components") = Return (VDict c).
Proof.
  unfold components_of.
  destruct (field e "components") as [[]|] eqn:F; try discriminate.
  intros [= ->]. apply field_getitem, F.
Qed.

Lemma index_field_getitem e a :
  index_field e = Some a ->
  exists m, getitem e (KStr "main") = Return m /\ getitem m (KStr "aqi") = Return a.
Proof.
  unfold index_field.
  destruct (field e "main") as [m|] eqn:F; [|discriminate].
  intros H. exists m. split; apply field_getitem; assumption.
Qed.

(** Without the index, the subscript [['main']['aqi']] raises. *)
Lemma index_field_missing e m :
  index_field e = None -> getitem e (KStr "main") = Return m ->
  exists ex, getitem m (KStr "aqi") = Raise ex.
Proof.
  unfold index_field. intros H G.
  assert (F : field e "main" = Some m).
  { destruct e; cbn in *; try discriminate.
    destruct (dict_lookup d "main"); congruence. }
  rewrite F in H.
  destruct m; cbn in *; try (eexists; reflexivity).
  rewrite H. eexists; reflexivity.
Qed.

Lemma weather_main_getitem payload m k x :
  field payload "main" = Some m -> weather_main payload k = Some x ->
  getitem payload (KStr "main") = Return m /\ getitem m (KStr k) = Return x.
Proof.
  unfold weather_main. intros F. rewrite F. intros H.
  split; apply field_getitem; assumption.
Qed.

Lemma wind_speed_of_get payload ws :
  wind_speed_of payload = Some ws ->
  exists wind, dict_get payload "wind" (VDict []) = Return wind
               /\ dict_get wind "speed" VNone = Return ws.
Proof.
  unfold wind_speed_of.
  destruct payload as [| | | | | |d]; try discriminate.
  cbn [dict_get].
  destruct (dict_lookup d "wind") as [[| | | | | |wd]|]; try discriminate.
  - intros [= <-]. exists (VDict wd). split; [reflexivity|].
    cbn. destruct (dict_lookup wd "speed"); reflexivity.
  - intros [= <-]. exists (VDict []). split; reflexivity.
Qed.

Lemma dict_get_components c k :
  dict_get (VDict c) k VNone = Return (value_or_none (dict_lookup c k)).
Proof. cbn. destruct (dict_lookup c k); reflexivity. Qed.

(** ** The fetch *)

(** The fetch, path by path. Every path ends in a returned dict; the
    weather request is issued only after the pollution request has come
    back with a response. *)
Lemma get_air_quality_data_paths w self lat lon t :
  let req1 := air_request self lat lon in
  let o1 := pollution_outcome w self lat lon t in
  let req2 := weather_request self lat lon in
  let o2 := weather_outcome w self lat lon t in
  get_air_quality_data w self lat lon t =
  match o1 with
  | GetTimeout _ => (Return (ApiFailure "Timeout"), [EvGet req1 o1])
  | GetFailed msg => (Return (ApiFailure msg), [EvGet req1 o1])
  | GetResponse r1 =>
      (Return
         match o2 with
         | GetTimeout _ => ApiFailure "Timeout"
         | GetFailed msg => ApiFailure msg
         | GetResponse r2 =>
             if (status_code r1 =? 200) && (status_code r2 =? 200)
             then
               match content r1, content r2 with
               | ValidJSON j1, ValidJSON j2 => ApiSuccess j1 j2
               | InvalidJSON msg, _ => ApiFailure msg
               | ValidJSON _, InvalidJSON msg => ApiFailure msg
               end
             else ApiFailure "API request failed"
         end,
       [EvGet req1 o1; EvGet req2 o2])
  end.
Proof.
  cbv zeta.
  unfold weather_outcome, pollution_outcome, get_air_quality_data,
    try_except, bind, requests_get.
  fold (air_request self lat lon). fold (weather_request self lat lon).
  destruct (http_get w t (air_request self lat lon)) as [m1|m1|r1];
    cbn; try reflexivity.
  destruct (http_get w _ (weather_request self lat lon)) as [m2|m2|r2];
    cbn; try reflexivity.
  destruct ((status_code r1 =? 200) && (status_code r2 =? 200)); [|reflexivity].
  unfold json.
  destruct (content r1); cbn; [|reflexivity].
  destruct (content r2); reflexivity.
Qed.

(** A fetch always returns a dict; it only issues requests, the pollution
    request first. *)
Lemma get_air_quality_data_events w self lat lon t :
  exists d o more,
    get_air_quality_data w self lat lon t =
      (Return d, EvGet (air_request self lat lon) o :: more)
    /\ inserted more = [] /\ pauses more = [].
Proof.
  rewrite get_air_quality_data_paths.
  destruct (pollution_outcome w self lat lon t) as [m|m|r];
    eexists; eexists; eexists; (split; [reflexivity|split; reflexivity]).
Qed.

(** ** Processing *)

(** One statement of the pipeline that has no effect: it returns, or it
    raises and the rest is skipped. *)
Ltac step_lift :=
  match goal with
  | |- context [bind (lift ?r) ?k ?t] =>
      let E := fresh "E" in
      destruct r eqn:E; [rewrite bind_lift_return | rewrite bind_lift_raise]
  end.

(** The three ways [process_and_save_data] can end: before the clock is
    read, between the clock and the sink, or with one call of the sink. *)
Lemma process_and_save_data_paths w location data t :
  let iso := utc_now w t in
  process_and_save_data w location data t = (Return false, [])
  \/ process_and_save_data w location data t = (Return false, [EvNow iso])
  \/ exists r,
       process_and_save_data w location data t =
         (Return (accepted (sink_insert w (t ++ [EvNow iso]) r)),
          [EvNow iso; EvInsert r (sink_insert w (t ++ [EvNow iso]) r)])
       /\ location_id r = loc_id location
       /\ timestamp r = iso
       /\ success data = true.
Proof.
  cbv zeta.
  remember (process_and_save_data w location data t) as run eqn:Hrun.
  revert Hrun. unfold process_and_save_data, try_except.
  repeat (step_lift; [|intros ->; left; reflexivity]).
  unfold bind at 1. unfold now_utc_isoformat at 1. cbn beta iota zeta.
  repeat (step_lift; [|intros ->; right; left; reflexivity]).
  unfold bind, insert_air_quality_data. cbn beta iota zeta.
  intros ->. right; right.
  match goal with |- context [sink_insert w _ ?r] => exists r end.
  repeat split.
  - destruct (sink_insert w _ _) as [[|]|]; reflexivity.
  - destruct data; [reflexivity|discriminate].
Qed.

(** Processing always returns a truth value; it never pauses, and it calls
    the sink at most once, with the id of its location, answering what the
    sink answered. *)
Lemma process_and_save_data_events w location data t :
  exists ok store,
    process_and_save_data w location data t = (Return ok, store)
    /\ pauses store = []
    /\ ((inserted store = [] /\ ok = false)
        \/ exists r out, inserted store = [r] /\ In (EvInsert r out) store
             /\ location_id r = loc_id location /\ ok = accepted out).
Proof.
  destruct (process_and_save_data_paths w location data t) as [H|[H|(r & H & Hid & _)]];
    rewrite H.
  - exists false, []. repeat split. left. split; reflexivity.
  - eexists; eexists. split; [reflexivity|]. split; [reflexivity|].
    left. split; reflexivity.
  - eexists; eexists. split; [reflexivity|]. split; [reflexivity|].
    right. exists r. eexists. split; [reflexivity|]. split; [|split; [exact Hid|reflexivity]].
    right; left; reflexivity.
Qed.

(** With the fields it reads in place, processing builds the record and
    hands it to the sink. *)
Lemma process_and_save_data_builds w location air weather t
  e comps a m tmp hum prs ws :
  first_entry air = Some e ->
  components_of e = Some comps ->
  index_field e = Some a ->
  field weather "main" = Some m ->
  weather_main weather "temp" = Some tmp ->
  weather_main weather "humidity" = Some hum ->
  weather_main weather "pressure" = Some prs ->
  wind_speed_of weather = Some ws ->
  let iso := utc_now w t in
  let r :=
    {| location_id := loc_id location;
       location_name := loc_name location;
       lat := loc_lat location;
       lon := loc_lon location;
       timestamp := iso;
       pm2_5 := value_or_none (dict_lookup comps "pm2_5");
       pm10 := value_or_none (dict_lookup comps "pm10");
       o3 := value_or_none (dict_lookup comps "o3");
       no2 := value_or_none (dict_lookup comps "no2");
       aqi := a; temp := tmp; humidity := hum; pressure := prs;
       wind_speed := ws |} in
  let out := sink_insert w (t ++ [EvNow iso]) r in
  process_and_save_data w location (ApiSuccess air weather) t =
    (Return (accepted out), [EvNow iso; EvInsert r out]).
Proof.
  intros Hfirst Hcomps Hidx Hmain Htmp Hhum Hprs Hwind iso r out.
  destruct (first_entry_getitem _ _ Hfirst) as (l & Hl & He).
  pose proof (components_of_getitem _ _ Hcomps) as Hc.
  destruct (index_field_getitem _ _ Hidx) as (m1 & Hm1 & Ha).
  destruct (weather_main_getitem _ _ _ _ Hmain Htmp) as [Hm Ht].
  destruct (weather_main_getitem _ _ _ _ Hmain Hhum) as [_ Hh].
  destruct (weather_main_getitem _ _ _ _ Hmain Hprs) as [_ Hp].
  destruct (wind_speed_of_get _ _ Hwind) as (wind & Hw & Hs).
  unfold process_and_save_data.
  change (api_getitem (ApiSuccess air weather) "air_quality") with (Return air).
  change (api_getitem (ApiSuccess air weather) "weather") with (Return weather).
  unfold try_except.
  repeat first
    [ rewrite bind_lift_return | rewrite Hl | rewrite He | rewrite Hc
    | rewrite Hm1 | rewrite Ha | rewrite Hm | rewrite Ht | rewrite Hh
    | rewrite Hp | rewrite Hw | rewrite Hs ].
  unfold bind at 1. unfold now_utc_isoformat at 1. cbn beta iota zeta.
  fold iso.
  rewrite !dict_get_components, !bind_lift_return.
  unfold bind, insert_air_quality_data. cbn beta iota zeta.
  fold r. fold out.
  destruct out as [[|]|]; reflexivity.
Qed.

(** ** The loop *)

Lemma collect_loop_step w self location rest s f t :
  exists chunk ok,
    iteration w self t location chunk ok
    /\ collect_loop w self (location :: rest) s f t =
       (fst (collect_loop w self rest
               (if ok then s + 1 else s) (if ok then f else f + 1) (t ++ chunk)),
        chunk ++
        snd (collect_loop w self rest
               (if ok then s + 1 else s) (if ok then f else f + 1) (t ++ chunk))).
Proof.
  destruct (get_air_quality_data_events w self (loc_lat location) (loc_lon location) t)
    as (d & o & more & Hget & _).
  remember (EvGet (air_request self (loc_lat location) (loc_lon location)) o :: more)
    as fetch eqn:Hfetch.
  cbn [collect_loop].
  rewrite (bind_return _ _ _ _ _ Hget).
  destruct (success d) eqn:Hd.
  - destruct (process_and_save_data_events w location d (t ++ fetch))
      as (ok & store & Hproc & _).
    exists (fetch ++ store ++ [EvSleep 2]), ok. split.
    + exists d, fetch, store. rewrite Hd. auto.
    + assert (Hcnt :
        (saved <- process_and_save_data w location d ;;
         if saved then ret (s + 1, f) else ret (s, f + 1)) (t ++ fetch) =
        (Return (if ok then s + 1 else s, if ok then f else f + 1), store)).
      { rewrite (bind_return _ _ _ _ _ Hproc).
        destruct ok; cbn; rewrite app_nil_r; reflexivity. }
      rewrite (bind_return _ _ _ _ _ Hcnt), bind_time_sleep.
      cbn [fst snd]. repeat rewrite <- app_assoc. reflexivity.
  - exists (fetch ++ [] ++ [EvSleep 2]), false. split.
    + exists d, fetch, []. rewrite Hd. auto.
    + assert (Hcnt : @ret (Z * Z) (s, f + 1) (t ++ fetch) = (Return (s, f + 1), []))
        by reflexivity.
      rewrite (bind_return _ _ _ _ _ Hcnt), bind_time_sleep.
      cbn [fst snd app]. repeat rewrite <- app_assoc. reflexivity.
Qed.

(** The whole loop: it returns, its events are those of one turn per
    location, and the counters grow by the classifications. *)
Lemma collect_loop_run w self locs : forall s f t,
  exists evs oks,
    collect_loop w self locs s f t =
      (Return (s + count_true oks, f + count_false oks), evs)
    /\ iterations (iteration w self) t locs evs oks.
Proof.
  induction locs as [|location rest IH]; intros s f t.
  - exists [], []. split; [|constructor].
    cbn. unfold ret, count_true, count_false. cbn.
    rewrite !Z.add_0_r. reflexivity.
  - destruct (collect_loop_step w self location rest s f t) as (chunk & ok & Hit & Hstep).
    destruct (IH (if ok then s + 1 else s) (if ok then f else f + 1) (t ++ chunk))
      as (evs & oks & Hrun & Hits).
    exists (chunk ++ evs), (ok :: oks). split; [|constructor; assumption].
    rewrite Hstep, Hrun. cbn [fst snd]. f_equal. f_equal.
    unfold count_true, count_false.
    destruct ok; cbn [filter negb List.length]; f_equal; lia.
Qed.


Lemma try_except_events {A} (body : M A) (a : A) t :
  snd (try_except body (fun _ => Some (ret a)) t) = snd (body t).
Proof.
  unfold try_except, ret.
  destruct (body t) as [[x|e] evs]; [reflexivity|].
  cbn. apply app_nil_r.
Qed.

Lemma bind_now_events {B} w (k : string -> M B) t :
  snd (bind (now_utc_isoformat w) k t) =
    EvNow (utc_now w t) :: snd (k (utc_now w t) (t ++ [EvNow (utc_now w t)])).
Proof.
  unfold bind, now_utc_isoformat.
  destruct (k (utc_now w t) (t ++ [EvNow (utc_now w t)])); reflexivity.
Qed.

Lemma bind_insert_events w r t :
  inserted
    (snd (bind (insert_air_quality_data w r)
            (fun ok : bool => if ok then ret true else ret false) t)) = [r].
Proof.
  unfold bind, insert_air_quality_data.
  destruct (sink_insert w t r) as [[|]|e]; reflexivity.
Qed.

(** ** The fetch and the run, for any decoder *)

Lemma bind_raise {A B} (m : M A) (k : A -> M B) t e evs :
  m t = (Raise e, evs) -> bind m k t = (Raise e, evs).
Proof. intros H. unfold bind. rewrite H. reflexivity. Qed.

(** The fetch with any decoder, path by path. An exception of the decoder
    goes through the [except] clauses like any other. *)
Lemma get_air_quality_data_with_paths dec w self lat lon t :
  let req1 := air_request self lat lon in
  let o1 := pollution_outcome w self lat lon t in
  let req2 := weather_request self lat lon in
  let o2 := weather_outcome w self lat lon t in
  get_air_quality_data_with dec w self lat lon t =
  match o1 with
  | GetTimeout _ => (Return (ApiFailure "Timeout"), [EvGet req1 o1])
  | GetFailed msg => (Return (ApiFailure msg), [EvGet req1 o1])
  | GetResponse r1 =>
      (match o2 with
       | GetTimeout _ => Return (ApiFailure "Timeout")
       | GetFailed msg => Return (ApiFailure msg)
       | GetResponse r2 =>
           if (status_code r1 =? 200) && (status_code r2 =? 200)
           then
             match dec r1 with
             | Raise e => fetch_except e
             | Return j1 =>
                 match dec r2 with
                 | Raise e => fetch_except e
                 | Return j2 => Return (ApiSuccess j1 j2)
                 end
             end
           else Return (ApiFailure "API request failed")
       end,
       [EvGet req1 o1; EvGet req2 o2])
  end.
Proof.
  cbv zeta.
  unfold weather_outcome, pollution_outcome, get_air_quality_data_with,
    try_except, bind, requests_get.
  fold (air_request self lat lon). fold (weather_request self lat lon).
  destruct (http_get w t (air_request self lat lon)) as [m1|m1|r1];
    cbn; try reflexivity.
  destruct (http_get w _ (weather_request self lat lon)) as [m2|m2|r2];
    cbn; try reflexivity.
  destruct ((status_code r1 =? 200) && (status_code r2 =? 200)); [|reflexivity].
  unfold lift.
  destruct (dec r1) as [j1|e1]; cbn.
  - destruct (dec r2) as [j2|e2]; cbn; [reflexivity|].
    destruct e2; reflexivity.
  - destruct e1; reflexivity.
Qed.

(** With the decoder of [json], the functions with a decoder are the
    functions without. *)
Lemma get_air_quality_data_with_contract w self lat lon t :
  get_air_quality_data_with contract_decoder w self lat lon t =
  get_air_quality_data w self lat lon t.
Proof.
  rewrite get_air_quality_data_with_paths, get_air_quality_data_paths.
  destruct (pollution_outcome w self lat lon t) as [m1|m1|r1]; try reflexivity.
  destruct (weather_outcome w self lat lon t) as [m2|m2|r2]; try reflexivity.
  destruct ((status_code r1 =? 200) && (status_code r2 =? 200)); [|reflexivity].
  unfold contract_decoder.
  destruct (content r1); [|reflexivity].
  destruct (content r2); reflexivity.
Qed.

Lemma bind_ext {A B} (m m' : M A) (k k' : A -> M B) t :
  m t = m' t -> (forall a t', k a t' = k' a t') -> bind m k t = bind m' k' t.
Proof.
  intros Hm Hk. unfold bind. rewrite Hm.
  destruct (m' t) as [[a|e] evs]; [rewrite Hk|]; reflexivity.
Qed.

Lemma collect_loop_with_contract w self locs : forall s f t,
  collect_loop_with contract_decoder w self locs s f t = collect_loop w self locs s f t.
Proof.
  induction locs as [|location rest IH]; intros s f t; [reflexivity|].
  cbn [collect_loop_with collect_loop].
  apply bind_ext; [apply get_air_quality_data_with_contract|].
  intros d t'. apply bind_ext; [reflexivity|].
  intros counters t''. apply bind_ext; [reflexivity|].
  intros _ t3. apply IH.
Qed.

Lemma collect_all_locations_with_contract w self t :
  collect_all_locations_with contract_decoder w self t = collect_all_locations w self t.
Proof. apply collect_loop_with_contract. Qed.

Lemma collect_single_location_with_contract w self id t :
  collect_single_location_with contract_decoder w self id t =
  collect_single_location w self id t.
Proof.
  unfold collect_single_location_with, collect_single_location.
  destruct (find _ (locations self)); [|reflexivity].
  apply bind_ext; [apply get_air_quality_data_with_contract|reflexivity].
Qed.

(** ** Two runs over a registry of two points *)

Example both_points_succeed :
  fst (collect_all_locations w_complete two_points []) = Return (2, 0)
  /\ map location_id (inserted (snd (collect_all_locations w_complete two_points [])))
     = ["aguachica_general"; "parque_central"]
  /\ pauses (snd (collect_all_locations w_complete two_points [])) = [2; 2].
Proof. vm_compute. repeat split. Qed.

Example second_weather_call_times_out :
  fst (collect_all_locations w_fourth_times_out two_points []) = Return (1, 1)
  /\ map location_id
       (inserted (snd (collect_all_locations w_fourth_times_out two_points [])))
     = ["aguachica_general"]
  /\ List.length (requested (snd (collect_all_locations w_fourth_times_out two_points [])))
     = 4%nat.
Proof. vm_compute. repeat split. Qed.

(** * The claims *)


(** C3, at the input where the code departs from it: an exception of the
    decoder that is not a [RequestException] is caught nowhere. When both
    calls for the first location come back with status 200 and the
    decoder raises such an exception on one of the bodies, the fetch
    raises it, and so does [collect_all_locations]: the run ends there,
    with the two requests as its only events, without a tally, a pause or
    a visit to the locations that follow. *)
Theorem decoder_error_escapes_the_run dec w self location rest t r1 r2 ex :
  locations self = location :: rest ->
  pollution_outcome w self (loc_lat location) (loc_lon location) t = GetResponse r1 ->
  weather_outcome w self (loc_lat location) (loc_lon location) t = GetResponse r2 ->
  status_code r1 = 200 ->
  status_code r2 = 200 ->
  dec r1 = Raise ex \/ (exists j, dec r1 = Return j /\ dec r2 = Raise ex) ->
  caught_by_fetch ex = false ->
  get_air_quality_data_with dec w self (loc_lat location) (loc_lon location) t =
    (Raise ex,
     [EvGet (air_request self (loc_lat location) (loc_lon location)) (GetResponse r1);
      EvGet (weather_request self (loc_lat location) (loc_lon location)) (GetResponse r2)])
  /\ collect_all_locations_with dec w self t =
       (Raise ex,
        [EvGet (air_request self (loc_lat location) (loc_lon location)) (GetResponse r1);
         EvGet (weather_request self (loc_lat location) (loc_lon location))
           (GetResponse r2)]).
Proof.
  intros Hlocs H1 H2 S1 S2 Hdec Hex.
  assert (Hx : fetch_except ex = Raise ex) by (destruct ex; try reflexivity; discriminate Hex).
  assert (Hget :
    get_air_quality_data_with dec w self (loc_lat location) (loc_lon location) t =
      (Raise ex,
       [EvGet (air_request self (loc_lat location) (loc_lon location)) (GetResponse r1);
        EvGet (weather_request self (loc_lat location) (loc_lon location))
          (GetResponse r2)])).
  { rewrite get_air_quality_data_with_paths, H1, H2, S1, S2. cbn [Z.eqb Pos.eqb andb].
    destruct Hdec as [->|(j & -> & ->)]; rewrite Hx; reflexivity. }
  split; [exact Hget|].
  unfold collect_all_locations_with. rewrite Hlocs. cbn [collect_loop_with].
  apply bind_raise. exact Hget.
Qed.

Lemma decoder_error_escapes_the_run_witness :
  get_air_quality_data_with limited_decoder w_huge_integer two_points 8.312 (-73.626) [] =
    (Raise (OtherException
              "Exceeds the limit (4300 digits) for integer string conversion"),
     [EvGet (air_request two_points 8.312 (-73.626))
        (GetResponse {| status_code := 200; content := ValidJSON (VInt (10 ^ 4300)) |});
      EvGet (weather_request two_points 8.312 (-73.626))
        (GetResponse {| status_code := 200; content := ValidJSON sample_weather |})])
  /\ collect_all_locations_with limited_decoder w_huge_integer two_points [] =
       (Raise (OtherException
                 "Exceeds the limit (4300 digits) for integer string conversion"),
        [EvGet (air_request two_points 8.312 (-73.626))
           (GetResponse {| status_code := 200; content := ValidJSON (VInt (10 ^ 4300)) |});
         EvGet (weather_request two_points 8.312 (-73.626))
           (GetResponse {| status_code := 200; content := ValidJSON sample_weather |})]).
Proof.
  apply (decoder_error_escapes_the_run limited_decoder w_huge_integer two_points
           {| loc_id := "aguachica_general"; loc_name := "Aguachica - Vista General";
              loc_lat := 8.312; loc_lon := -73.626 |}
           [ {| loc_id := "parque_central"; loc_name := "Parque Central";
                loc_lat := 8.310675833008426; loc_lon := -73.62363665855918 |} ]
           []
           {| status_code := 200; content := ValidJSON (VInt (10 ^ 4300)) |}
           {| status_code := 200; content := ValidJSON sample_weather |}
           (OtherException
              "Exceeds the limit (4300 digits) for integer string conversion")).
  - reflexivity.
  - reflexivity.
  - reflexivity.
  - reflexivity.
  - reflexivity.
  - left. vm_compute. reflexivity.
  - reflexivity.
Defined.

(** C10: the two requests of a fetch go out one after the other, the
    pollution request first: when the pollution request times out or fails
    in transport, the fetch returns a failure having issued that request
    only, and the weather endpoint is not contacted. *)
Theorem pollution_failure_skips_weather w self lat lon t msg :
  pollution_outcome w self lat lon t = GetTimeout msg
  \/ pollution_outcome w self lat lon t = GetFailed msg ->
  exists err evs,
    get_air_quality_data w self lat lon t = (Return (ApiFailure err), evs)
    /\ evs = [EvGet (air_request self lat lon) (pollution_outcome w self lat lon t)]
    /\ requested evs = [air_request self lat lon]
    /\ ~ In (weather_request self lat lon) (requested evs).
Proof.
  intros H.
  assert (Hneq : air_request self lat lon <> weather_request self lat lon).
  { intros E. apply (f_equal params) in E. discriminate E. }
  rewrite get_air_quality_data_paths.
  destruct H as [H|H]; rewrite H; eexists; eexists;
    (split; [reflexivity|]); (split; [reflexivity|]); (split; [reflexivity|]);
    cbn; intros [E|[]]; exact (Hneq E).
Qed.

Lemma pollution_failure_skips_weather_witness :
  exists err evs,
    get_air_quality_data w_down (__init__ "key") 8.312 (-73.626) [] =
      (Return (ApiFailure err), evs)
    /\ evs = [EvGet (air_request (__init__ "key") 8.312 (-73.626))
                (pollution_outcome w_down (__init__ "key") 8.312 (-73.626) [])]
    /\ requested evs = [air_request (__init__ "key") 8.312 (-73.626)]
    /\ ~ In (weather_request (__init__ "key") 8.312 (-73.626)) (requested evs).
Proof.
  apply (pollution_failure_skips_weather w_down (__init__ "key") 8.312 (-73.626) []
           "Read timed out. (read timeout=10)").
  left. reflexivity.
Defined.

(** C2, as the code has it: the fetch returns the success dict, with the
    two decoded payloads, if and only if both calls come back with status
    200 and the decoder answers for both bodies. It returns the failure
    dict, which carries an error message and no payload, when a call
    times out or fails in transport, when a status is not 200, and when
    the decoder rejects a body with a [JSONDecodeError]. *)
Theorem fetch_succeeds_iff_both_200_and_decoded dec w self lat lon t :
  let o1 := pollution_outcome w self lat lon t in
  let o2 := weather_outcome w self lat lon t in
  (forall a wd,
      fst (get_air_quality_data_with dec w self lat lon t) = Return (ApiSuccess a wd)
      <-> exists r1 r2,
            o1 = GetResponse r1 /\ o2 = GetResponse r2
            /\ status_code r1 = 200 /\ status_code r2 = 200
            /\ dec r1 = Return a /\ dec r2 = Return wd)
  /\ (responded o1 = false
      \/ responded o2 = false
      \/ (exists r1 r2,
            o1 = GetResponse r1 /\ o2 = GetResponse r2
            /\ ((status_code r1 <> 200 \/ status_code r2 <> 200)
                \/ (exists msg, dec r1 = Raise (RequestException msg))
                \/ (exists j msg, dec r1 = Return j
                                  /\ dec r2 = Raise (RequestException msg)))) ->
      exists err,
        fst (get_air_quality_data_with dec w self lat lon t) = Return (ApiFailure err)).
Proof.
  cbv zeta. rewrite get_air_quality_data_with_paths. split.
  - intros a wd. split.
    + destruct (pollution_outcome w self lat lon t) as [m1|m1|r1]; try discriminate.
      destruct (weather_outcome w self lat lon t) as [m2|m2|r2]; try discriminate.
      cbn [fst].
      destruct (status_code r1 =? 200) eqn:S1; [|discriminate].
      destruct (status_code r2 =? 200) eqn:S2; [|discriminate].
      cbn [andb].
      destruct (dec r1) as [j1|e1] eqn:D1; [|destruct e1; discriminate].
      destruct (dec r2) as [j2|e2] eqn:D2; [|destruct e2; discriminate].
      intros [= <- <-]. exists r1, r2.
      apply Z.eqb_eq in S1, S2. repeat split; assumption.
    + intros (r1 & r2 & -> & -> & S1 & S2 & D1 & D2).
      cbn [fst]. rewrite S1, S2, D1, D2. reflexivity.
  - intros [H|[H|(r1 & r2 & H1 & H2 & H)]].
    + destruct (pollution_outcome w self lat lon t); try discriminate H;
        eexists; reflexivity.
    + destruct (pollution_outcome w self lat lon t); try (eexists; reflexivity).
      destruct (weather_outcome w self lat lon t); try discriminate H;
        eexists; reflexivity.
    + rewrite H1, H2. cbn [fst].
      destruct ((status_code r1 =? 200) && (status_code r2 =? 200)) eqn:S;
        [|eexists; reflexivity].
      apply andb_prop in S. destruct S as [S1 S2]. apply Z.eqb_eq in S1, S2.
      destruct H as [[N|N]|[(msg & D1)|(j & msg & D1 & D2)]].
      * contradiction.
      * contradiction.
      * rewrite D1. eexists. reflexivity.
      * rewrite D1, D2. eexists. reflexivity.
Qed.

(** C2 as stated fails: with status 200 on both calls and a body that is
    not JSON, the fetch returns the failure dict. *)
Lemma both_200_without_json_fails :
  ~ succeeds_iff_both_200 w_html (__init__ "key") 8.312 (-73.626) [].
Proof.
  intros (d & evs & Hrun & Hiff).
  rewrite get_air_quality_data_paths in Hrun.
  cbn in Hrun. injection Hrun as <- _.
  destruct Hiff as [_ H].
  discriminate H. split; reflexivity.
Qed.

(** C5: when the first entry of the pollution payload's list lacks the
    air-quality index, processing fails: it returns False, so that the
    location is classified as a failure, and it emits no event at all; in
    particular the sink is not called. *)
Theorem missing_index_fails w location air weather t e :
  first_entry air = Some e ->
  index_field e = None ->
  process_and_save_data w location (ApiSuccess air weather) t = (Return false, [])
  /\ inserted (snd (process_and_save_data w location (ApiSuccess air weather) t)) = [].
Proof.
  intros Hfirst Hidx.
  destruct (first_entry_getitem _ _ Hfirst) as (l & Hl & He).
  assert (H : process_and_save_data w location (ApiSuccess air weather) t
              = (Return false, [])).
  { unfold process_and_save_data, try_except.
    change (api_getitem (ApiSuccess air weather) "air_quality") with (Return air).
    change (api_getitem (ApiSuccess air weather) "weather") with (Return weather).
    repeat first [rewrite bind_lift_return | rewrite Hl | rewrite He].
    step_lift; [|reflexivity].
    repeat first [rewrite bind_lift_return | rewrite Hl | rewrite He].
    destruct (getitem e (KStr "main")) as [m|ex] eqn:Hm.
    - rewrite bind_lift_return.
      destruct (index_field_missing _ _ Hidx Hm) as (ex & Hraise).
      rewrite Hraise, bind_lift_raise. reflexivity.
    - rewrite bind_lift_raise. reflexivity. }
  rewrite H. split; reflexivity.
Qed.

Lemma missing_index_fails_witness :
  process_and_save_data w_complete
    {| loc_id := "bosque"; loc_name := "Bosque";
       loc_lat := 8.312303609676293; loc_lon := -73.61448867800057 |}
    (ApiSuccess pollution_without_aqi sample_weather) [] = (Return false, [])
  /\ inserted
       (snd (process_and_save_data w_complete
               {| loc_id := "bosque"; loc_name := "Bosque";
                  loc_lat := 8.312303609676293; loc_lon := -73.61448867800057 |}
               (ApiSuccess pollution_without_aqi sample_weather) [])) = [].
Proof.
  apply (missing_index_fails w_complete _ pollution_without_aqi sample_weather []
           (VDict [("main", VDict []);
                   ("components",
                    VDict [("pm2_5", VFloat 4.5); ("pm10", VFloat 6.25)])])).
  - reflexivity.
  - reflexivity.
Defined.

(** C6: when the first entry of the pollution payload's list has the
    index and its components lack [pm2_5], and the weather payload has
    its required fields, processing builds one record and hands it to the
    sink: [pm2_5] is None in it, each of [pm10], [o3] and [no2] is the
    component when it is there and None when it is not, and the other
    fields carry the values of the payloads. *)
Theorem missing_pm2_5_is_none w location air weather t e comps a tmp hum prs ws :
  first_entry air = Some e ->
  components_of e = Some comps ->
  index_field e = Some a ->
  dict_lookup comps "pm2_5" = None ->
  weather_main weather "temp" = Some tmp ->
  weather_main weather "humidity" = Some hum ->
  weather_main weather "pressure" = Some prs ->
  wind_speed_of weather = Some ws ->
  let iso := utc_now w t in
  let r :=
    {| location_id := loc_id location;
       location_name := loc_name location;
       lat := loc_lat location;
       lon := loc_lon location;
       timestamp := iso;
       pm2_5 := VNone;
       pm10 := value_or_none (dict_lookup comps "pm10");
       o3 := value_or_none (dict_lookup comps "o3");
       no2 := value_or_none (dict_lookup comps "no2");
       aqi := a; temp := tmp; humidity := hum; pressure := prs;
       wind_speed := ws |} in
  let out := sink_insert w (t ++ [EvNow iso]) r in
  process_and_save_data w location (ApiSuccess air weather) t =
    (Return (accepted out), [EvNow iso; EvInsert r out]).
Proof.
  intros Hfirst Hcomps Hidx Hpm Htmp Hhum Hprs Hwind.
  assert (Hmain : exists m, field weather "main" = Some m).
  { unfold weather_main in Htmp.
    destruct (field weather "main") as [m|]; [eauto|discriminate]. }
  destruct Hmain as (m & Hmain).
  pose proof (process_and_save_data_builds w location air weather t
                e comps a m tmp hum prs ws
                Hfirst Hcomps Hidx Hmain Htmp Hhum Hprs Hwind) as H.
  cbv zeta in H. rewrite Hpm in H. exact H.
Qed.

Lemma missing_pm2_5_is_none_witness :
  process_and_save_data w_complete
    {| loc_id := "estadio"; loc_name := "Estadio";
       loc_lat := 8.30159931733102; loc_lon := -73.622763654179 |}
    (ApiSuccess pollution_without_pm2_5 sample_weather) [] =
  (Return true,
   [EvNow "2025-01-01T00:00:00+00:00";
    EvInsert
      {| location_id := "estadio"; location_name := "Estadio";
         lat := 8.30159931733102; lon := -73.622763654179;
         timestamp := "2025-01-01T00:00:00+00:00";
         pm2_5 := VNone; pm10 := VFloat 6.25; o3 := VFloat 68.5;
         no2 := VFloat 0.75; aqi := VInt 2; temp := VFloat 28.5;
         humidity := VInt 70; pressure := VInt 1012;
         wind_speed := VFloat 3.5 |}
      (Return true)]).
Proof.
  apply (missing_pm2_5_is_none w_complete
           {| loc_id := "estadio"; loc_name := "Estadio";
              loc_lat := 8.30159931733102; loc_lon := -73.622763654179 |}
           pollution_without_pm2_5 sample_weather []
           (VDict [("main", VDict [("aqi", VInt 2)]);
                   ("components",
                    VDict [("no2", VFloat 0.75); ("o3", VFloat 68.5);
                           ("pm10", VFloat 6.25)])])
           [("no2", VFloat 0.75); ("o3", VFloat 68.5); ("pm10", VFloat 6.25)]
           (VInt 2) (VFloat 28.5) (VInt 70) (VInt 1012) (VFloat 3.5));
    reflexivity.
Defined.

(** C9: processing the same location and the same fetch result twice, in
    any two worlds and at any two histories, builds records that agree in
    every field except the timestamp; the timestamp of a record is the
    clock of its world when it was built, not a value of the payloads. *)
Theorem normalization_deterministic_up_to_timestamp w1 w2 location data t1 t2 :
  let evs1 := snd (process_and_save_data w1 location data t1) in
  let evs2 := snd (process_and_save_data w2 location data t2) in
  map (with_timestamp "") (inserted evs1) = map (with_timestamp "") (inserted evs2)
  /\ (forall r, In r (inserted evs1) -> timestamp r = utc_now w1 t1)
  /\ (forall r, In r (inserted evs2) -> timestamp r = utc_now w2 t2).
Proof.
  cbv zeta. unfold process_and_save_data. rewrite !try_except_events.
  repeat (step_lift; rewrite ?bind_lift_return, ?bind_lift_raise;
          [|cbn; split; [reflexivity|split; intros ? []]]).
  rewrite !bind_now_events. cbn [inserted].
  repeat (step_lift; rewrite ?bind_lift_return, ?bind_lift_raise;
          [|cbn; split; [reflexivity|split; intros ? []]]).
  rewrite !bind_insert_events. cbn [map with_timestamp In].
  split; [reflexivity|].
  split; intros r [<-|[]]; reflexivity.
Qed.








Lemma present_some (o : option value) : present o = true -> exists v, o = Some v.
Proof. destruct o as [v|]; [eauto|discriminate]. Qed.

Lemma complete_pollution_fields j :
  complete_pollution j = true ->
  exists e comps a,
    first_entry j = Some e /\ components_of e = Some comps /\ index_field e = Some a.
Proof.
  unfold complete_pollution.
  destruct (first_entry j) as [e|]; [|discriminate].
  destruct (components_of e) as [comps|] eqn:Hc; [|discriminate].
  intros H. repeat (apply andb_prop in H; destruct H as [H _]).
  destruct (present_some _ H) as (a & Ha).
  exists e, comps, a. repeat split; assumption.
Qed.

Lemma complete_weather_fields j :
  complete_weather j = true ->
  exists m tmp hum prs ws,
    field j "main" = Some m
    /\ weather_main j "temp" = Some tmp
    /\ weather_main j "humidity" = Some hum
    /\ weather_main j "pressure" = Some prs
    /\ wind_speed_of j = Some ws.
Proof.
  unfold complete_weather. intros H.
  apply andb_prop in H. destruct H as [H Hwind].
  apply andb_prop in H. destruct H as [H Hprs].
  apply andb_prop in H. destruct H as [Htmp Hhum].
  destruct (present_some _ Htmp) as (tmp & Et).
  destruct (present_some _ Hhum) as (hum & Eh).
  destruct (present_some _ Hprs) as (prs & Ep).
  assert (Em : exists m, field j "main" = Some m).
  { unfold weather_main in Et. destruct (field j "main"); [eauto|discriminate]. }
  destruct Em as (m & Em).
  destruct (field j "wind") as [wd|] eqn:Ew; [|discriminate].
  destruct (present_some _ Hwind) as (ws & Es).
  exists m, tmp, hum, prs, ws. repeat split; auto.
  destruct j; try discriminate. cbn in Ew. unfold wind_speed_of. rewrite Ew.
  destruct wd; try discriminate. cbn in Es. rewrite Es. reflexivity.
Qed.

(** In a world that answers every request with complete payloads and
    whose sink accepts every record, a turn is a success and hands the
    sink one record of its location. *)
Lemma iteration_complete w self h location chunk ok :
  answers_complete w self -> sink_accepts w ->
  iteration w self h location chunk ok ->
  ok = true /\ exists r, inserted chunk = [r] /\ location_id r = loc_id location.
Proof.
  intros Hw Hsink (d & fetch & store & Hget & -> & Hproc).
  rewrite get_air_quality_data_paths in Hget.
  destruct (Hw h (loc_lat location) (loc_lon location)) as [(j1 & H1 & C1) _].
  unfold weather_outcome, pollution_outcome in Hget.
  rewrite H1 in Hget. cbn [ok_response] in Hget.
  destruct (Hw (h ++ [EvGet (air_request self (loc_lat location) (loc_lon location))
                        (ok_response j1)])
              (loc_lat location) (loc_lon location)) as [_ (j2 & H2 & C2)].
  cbn [ok_response] in H2. rewrite H2 in Hget. cbn in Hget.
  injection Hget as <- <-. cbn [success] in Hproc.
  destruct (complete_pollution_fields _ C1) as (e & comps & a & Hf & Hc & Hi).
  destruct (complete_weather_fields _ C2) as (m & tmp & hum & prs & ws & Hm & Ht & Hh & Hp & Hs).
  rewrite (process_and_save_data_builds w location j1 j2 _ e comps a m tmp hum prs ws
             Hf Hc Hi Hm Ht Hh Hp Hs) in Hproc.
  rewrite Hsink in Hproc. injection Hproc as <- <-.
  split; [reflexivity|].
  eexists. split; reflexivity.
Qed.

(** C4: on a registry of two locations with distinct ids, when both
    endpoints answer every request with status 200 and a complete payload
    and the sink accepts every record, [collect_all_locations] returns
    (2, 0) and the sink is called exactly twice, with the ids of the two
    locations in the order of the registry. *)
Theorem two_locations_end_to_end w self l1 l2 t :
  locations self = [l1; l2] ->
  loc_id l1 <> loc_id l2 ->
  answers_complete w self ->
  sink_accepts w ->
  exists evs r1 r2,
    collect_all_locations w self t = (Return (2, 0), evs)
    /\ inserted evs = [r1; r2]
    /\ location_id r1 = loc_id l1
    /\ location_id r2 = loc_id l2
    /\ location_id r1 <> location_id r2.
Proof.
  intros Hlocs Hneq Hw Hsink.
  destruct (collect_loop_run w self (locations self) 0 0 t) as (evs & oks & Hrun & Hits).
  unfold collect_all_locations. rewrite Hrun. rewrite Hlocs in Hits.
  inversion Hits as [|h a rest chunk1 ok1 evs1 oks1 Hit1 Hrest]; subst.
  inversion Hrest as [|h a rest chunk2 ok2 evs2 oks2 Hit2 Hnil]; subst.
  inversion Hnil; subst.
  destruct (iteration_complete _ _ _ _ _ _ Hw Hsink Hit1) as (-> & r1 & Hi1 & Hid1).
  destruct (iteration_complete _ _ _ _ _ _ Hw Hsink Hit2) as (-> & r2 & Hi2 & Hid2).
  exists (chunk1 ++ chunk2 ++ []), r1, r2.
  split; [reflexivity|].
  rewrite !inserted_app, Hi1, Hi2.
  repeat split; auto. congruence.
Qed.

Lemma two_locations_end_to_end_witness :
  exists evs r1 r2,
    collect_all_locations w_complete two_points [] = (Return (2, 0), evs)
    /\ inserted evs = [r1; r2]
    /\ location_id r1 = "aguachica_general"
    /\ location_id r2 = "parque_central"
    /\ location_id r1 <> location_id r2.
Proof.
  apply (two_locations_end_to_end w_complete two_points
           {| loc_id := "aguachica_general"; loc_name := "Aguachica - Vista General";
              loc_lat := 8.312; loc_lon := -73.626 |}
           {| loc_id := "parque_central"; loc_name := "Parque Central";
              loc_lat := 8.310675833008426; loc_lon := -73.62363665855918 |} []).
  - reflexivity.
  - discriminate.
  - intros t lat lon. split.
    + exists sample_pollution. split; reflexivity.
    + exists sample_weather. split; reflexivity.
  - intros t r. reflexivity.
Defined.

(** * Further properties of the fetch *)

(** X1: when both calls come back with a response and one of them has a
    status other than 200, the fetch reports "API request failed", having
    issued both requests; the bodies are not looked at. *)
Theorem non_200_reports_api_request_failed w self lat lon t r1 r2 :
  pollution_outcome w self lat lon t = GetResponse r1 ->
  weather_outcome w self lat lon t = GetResponse r2 ->
  status_code r1 <> 200 \/ status_code r2 <> 200 ->
  get_air_quality_data w self lat lon t =
    (Return (ApiFailure "API request failed"),
     [EvGet (air_request self lat lon) (GetResponse r1);
      EvGet (weather_request self lat lon) (GetResponse r2)]).
Proof.
  intros H1 H2 Hstatus.
  rewrite get_air_quality_data_paths, H1, H2.
  assert (E : (status_code r1 =? 200) && (status_code r2 =? 200) = false).
  { apply andb_false_iff.
    destruct Hstatus as [H|H]; [left|right]; apply Z.eqb_neq; exact H. }
  rewrite E. reflexivity.
Qed.

Lemma non_200_reports_api_request_failed_witness :
  get_air_quality_data w_weather_503 two_points 8.312 (-73.626) [] =
    (Return (ApiFailure "API request failed"),
     [EvGet (air_request two_points 8.312 (-73.626))
        (GetResponse {| status_code := 200; content := ValidJSON sample_pollution |});
      EvGet (weather_request two_points 8.312 (-73.626))
        (GetResponse
           {| status_code := 503;
              content := InvalidJSON "Expecting value: line 1 column 1 (char 0)" |})]).
Proof.
  apply (non_200_reports_api_request_failed w_weather_503 two_points 8.312 (-73.626) []).
  - reflexivity.
  - reflexivity.
  - right. discriminate.
Defined.

(** X2: a call that times out makes the fetch report "Timeout"; for the
    weather call this holds whatever the status of the pollution response
    was, so that a 404 followed by a timeout is reported as a timeout. *)
Theorem timeout_reports_timeout w self lat lon t :
  (exists msg, pollution_outcome w self lat lon t = GetTimeout msg)
  \/ (exists r1 msg, pollution_outcome w self lat lon t = GetResponse r1
                     /\ weather_outcome w self lat lon t = GetTimeout msg) ->
  fst (get_air_quality_data w self lat lon t) = Return (ApiFailure "Timeout").
Proof.
  intros [(msg & H1)|(r1 & msg & H1 & H2)];
    rewrite get_air_quality_data_paths, H1; [|rewrite H2]; reflexivity.
Qed.

Lemma timeout_reports_timeout_witness :
  fst (get_air_quality_data w_weather_times_out two_points 8.312 (-73.626) []) =
    Return (ApiFailure "Timeout").
Proof.
  apply (timeout_reports_timeout w_weather_times_out two_points 8.312 (-73.626) []).
  right.
  exists {| status_code := 404; content := ValidJSON (VDict [("cod", VStr "404")]) |},
    "Read timed out. (read timeout=10)".
  split; reflexivity.
Defined.

(** X3: a call that fails in transport makes the fetch report the text of
    the exception, whichever of the two calls it was. *)
Theorem transport_failure_reports_its_text w self lat lon t msg :
  pollution_outcome w self lat lon t = GetFailed msg
  \/ (exists r1, pollution_outcome w self lat lon t = GetResponse r1
                 /\ weather_outcome w self lat lon t = GetFailed msg) ->
  fst (get_air_quality_data w self lat lon t) = Return (ApiFailure msg).
Proof.
  intros [H1|(r1 & H1 & H2)];
    rewrite get_air_quality_data_paths, H1; [|rewrite H2]; reflexivity.
Qed.

Lemma transport_failure_reports_its_text_witness :
  fst (get_air_quality_data w_weather_refused two_points 8.312 (-73.626) []) =
    Return (ApiFailure "Connection refused").
Proof.
  apply (transport_failure_reports_its_text w_weather_refused two_points
           8.312 (-73.626) [] "Connection refused").
  right. exists {| status_code := 200; content := ValidJSON sample_pollution |}.
  split; reflexivity.
Defined.

(** X4: when both calls come back with status 200 and a body is not JSON,
    the fetch reports the decoder's message; the pollution body is decoded
    first, so its message is the one reported when neither body is JSON. *)
Theorem undecodable_body_reports_decoder_message w self lat lon t r1 r2 msg :
  pollution_outcome w self lat lon t = GetResponse r1 ->
  weather_outcome w self lat lon t = GetResponse r2 ->
  status_code r1 = 200 ->
  status_code r2 = 200 ->
  content r1 = InvalidJSON msg
  \/ (exists j, content r1 = ValidJSON j /\ content r2 = InvalidJSON msg) ->
  fst (get_air_quality_data w self lat lon t) = Return (ApiFailure msg).
Proof.
  intros H1 H2 S1 S2 Hbody.
  rewrite get_air_quality_data_paths, H1, H2, S1, S2. cbn [fst Z.eqb Pos.eqb andb].
  destruct Hbody as [E1|(j & E1 & E2)]; rewrite E1; [|rewrite E2]; reflexivity.
Qed.

Lemma undecodable_body_reports_decoder_message_witness :
  fst (get_air_quality_data w_html two_points 8.312 (-73.626) []) =
    Return (ApiFailure "Expecting value: line 1 column 1 (char 0)").
Proof.
  apply (undecodable_body_reports_decoder_message w_html two_points 8.312 (-73.626) []
           {| status_code := 200;
              content := InvalidJSON "Expecting value: line 1 column 1 (char 0)" |}
           {| status_code := 200;
              content := InvalidJSON "Expecting value: line 1 column 1 (char 0)" |}).
  - reflexivity.
  - reflexivity.
  - reflexivity.
  - reflexivity.
  - left. reflexivity.
Defined.

(** X5: a fetch has no effect but its requests. It issues the pollution
    request, and then the weather request exactly when the pollution call
    came back with a response, of whatever status: a non-200 answer of the
    pollution endpoint does not spare the weather request. *)
Theorem fetch_issues_weather_request_after_any_response w self lat lon t :
  let evs := snd (get_air_quality_data w self lat lon t) in
  requested evs =
    air_request self lat lon ::
    (if responded (pollution_outcome w self lat lon t)
     then [weather_request self lat lon] else [])
  /\ List.length evs = List.length (requested evs)
  /\ inserted evs = [] /\ pauses evs = [].
Proof.
  cbv zeta. rewrite get_air_quality_data_paths.
  destruct (pollution_outcome w self lat lon t); cbn; repeat split.
Qed.

(** * Further properties of processing *)

Lemma getitem_field_inv v k x :
  getitem v (KStr k) = Return x -> field v k = Some x.
Proof.
  destruct v; cbn; try discriminate.
  destruct (dict_lookup d k); [intros [= ->]; reflexivity|discriminate].
Qed.

Lemma getitem_weather_main payload m k x :
  getitem payload (KStr "main") = Return m ->
  getitem m (KStr k) = Return x ->
  weather_main payload k = Some x.
Proof.
  intros Hm Hk. unfold weather_main.
  rewrite (getitem_field_inv _ _ _ Hm). apply getitem_field_inv, Hk.
Qed.

(** Without a first entry in a list, the subscripts
    [['list'][0]['components']] raise. *)
Lemma first_entry_none_raises air l e0 :
  first_entry air = None ->
  getitem air (KStr "list") = Return l ->
  getitem l (KInt 0) = Return e0 ->
  exists ex, getitem e0 (KStr "components") = Raise ex.
Proof.
  intros Hnone Hl H0.
  apply getitem_field_inv in Hl. unfold first_entry in Hnone. rewrite Hl in Hnone.
  destruct l as [| | | |s|[|x l]|d]; try discriminate.
  cbn in H0. destruct (norm_index (String.length s) 0); [|discriminate].
  destruct (String.get n s); [|discriminate].
  injection H0 as <-. eexists. reflexivity.
Qed.

Lemma dict_get_not_dict c k default :
  (forall d, c <> VDict d) -> dict_get c k default = Raise AttributeError.
Proof.
  intros H. destruct c; try reflexivity. exfalso. exact (H d eq_refl).
Qed.

(** After a run of [step_lift]: a subscript met twice has been named
    twice; identify the names. *)
Ltac same_returns :=
  repeat match goal with
         | H : Return _ = Return _ |- _ => injection H as H; subst
         end.

(** The three ways processing can end, with the record in full. *)
Lemma process_and_save_data_cases w location data t :
  let iso := utc_now w t in
  process_and_save_data w location data t = (Return false, [])
  \/ process_and_save_data w location data t = (Return false, [EvNow iso])
  \/ exists r,
       process_and_save_data w location data t =
         (Return (accepted (sink_insert w (t ++ [EvNow iso]) r)),
          [EvNow iso; EvInsert r (sink_insert w (t ++ [EvNow iso]) r)])
       /\ location_id r = loc_id location
       /\ location_name r = loc_name location
       /\ lat r = loc_lat location
       /\ lon r = loc_lon location
       /\ timestamp r = iso.
Proof.
  cbv zeta.
  remember (process_and_save_data w location data t) as run eqn:Hrun.
  revert Hrun. unfold process_and_save_data, try_except.
  repeat (step_lift; [|intros ->; left; reflexivity]).
  unfold bind at 1. unfold now_utc_isoformat at 1. cbn beta iota zeta.
  repeat (step_lift; [|intros ->; right; left; reflexivity]).
  unfold bind, insert_air_quality_data. cbn beta iota zeta.
  intros ->. right; right.
  match goal with |- context [sink_insert w _ ?r] => exists r end.
  repeat split.
  destruct (sink_insert w _ _) as [[|]|]; reflexivity.
Qed.

(** X6: handed the dict of a failed fetch, processing returns False
    without any effect: the missing key ['air_quality'] is caught like
    every other exception. *)
Theorem failed_fetch_is_not_processed w location err t :
  process_and_save_data w location (ApiFailure err) t = (Return false, []).
Proof.
  unfold process_and_save_data, try_except.
  change (api_getitem (ApiFailure err) "air_quality")
    with (@Raise value (KeyError (KStr "air_quality"))).
  rewrite bind_lift_raise. reflexivity.
Qed.

(** X7: when the pollution payload has no first entry (no ['list'], an
    empty list, or something that is not a list under that key),
    processing returns False without reading the clock and without
    calling the sink. *)
Theorem missing_first_entry_fails w location air weather t :
  first_entry air = None ->
  process_and_save_data w location (ApiSuccess air weather) t = (Return false, []).
Proof.
  intros Hnone.
  unfold process_and_save_data, try_except.
  change (api_getitem (ApiSuccess air weather) "air_quality") with (Return air).
  change (api_getitem (ApiSuccess air weather) "weather") with (Return weather).
  rewrite !bind_lift_return.
  destruct (getitem air (KStr "list")) as [l|ex] eqn:Hl;
    [rewrite bind_lift_return|reflexivity].
  destruct (getitem l (KInt 0)) as [e0|ex] eqn:H0;
    [rewrite bind_lift_return|reflexivity].
  destruct (first_entry_none_raises _ _ _ Hnone Hl H0) as (ex & Hex).
  rewrite Hex, bind_lift_raise. reflexivity.
Qed.

Lemma missing_first_entry_fails_witness :
  process_and_save_data w_complete
    {| loc_id := "universidad"; loc_name := "Universidad Popular del Cesar";
       loc_lat := 8.314789098234467; loc_lon := -73.59638568793966 |}
    (ApiSuccess pollution_empty_list sample_weather) [] = (Return false, []).
Proof.
  apply (missing_first_entry_fails w_complete _ pollution_empty_list sample_weather []).
  reflexivity.
Defined.

(** X8: when the weather payload lacks the temperature, the humidity or
    the pressure, processing returns False without reading the clock and
    without calling the sink, whatever the pollution payload holds. *)
Theorem missing_weather_field_fails w location air weather t :
  weather_main weather "temp" = None
  \/ weather_main weather "humidity" = None
  \/ weather_main weather "pressure" = None ->
  process_and_save_data w location (ApiSuccess air weather) t = (Return false, []).
Proof.
  intros Hmissing.
  unfold process_and_save_data, try_except.
  change (api_getitem (ApiSuccess air weather) "air_quality") with (Return air).
  change (api_getitem (ApiSuccess air weather) "weather") with (Return weather).
  rewrite !bind_lift_return.
  repeat (step_lift; [|reflexivity]).
  exfalso. same_returns.
  match goal with
  | Hm : getitem weather (KStr "main") = Return ?m,
    Ht : getitem ?m (KStr "temp") = Return _,
    Hh : getitem ?m (KStr "humidity") = Return _,
    Hp : getitem ?m (KStr "pressure") = Return _ |- _ =>
      pose proof (getitem_weather_main _ _ _ _ Hm Ht);
      pose proof (getitem_weather_main _ _ _ _ Hm Hh);
      pose proof (getitem_weather_main _ _ _ _ Hm Hp)
  end.
  destruct Hmissing as [H'|[H'|H']]; congruence.
Qed.

Lemma missing_weather_field_fails_witness :
  process_and_save_data w_complete
    {| loc_id := "bosque"; loc_name := "Bosque";
       loc_lat := 8.312303609676293; loc_lon := -73.61448867800057 |}
    (ApiSuccess sample_pollution weather_without_humidity) [] = (Return false, []).
Proof.
  apply (missing_weather_field_fails w_complete _ sample_pollution
           weather_without_humidity []).
  right; left. reflexivity.
Defined.

(** X9: a wind section that is there but is not an object (a null, a
    number, a list) makes processing return False without reading the
    clock and without calling the sink; only an absent wind section is
    tolerated. *)
Theorem wind_not_an_object_fails w location air weather t wind :
  field weather "wind" = Some wind ->
  (forall d, wind <> VDict d) ->
  process_and_save_data w location (ApiSuccess air weather) t = (Return false, []).
Proof.
  intros Hwind Hnot.
  unfold process_and_save_data, try_except.
  change (api_getitem (ApiSuccess air weather) "air_quality") with (Return air).
  change (api_getitem (ApiSuccess air weather) "weather") with (Return weather).
  rewrite !bind_lift_return.
  repeat (step_lift; [|reflexivity]).
  exfalso. same_returns.
  match goal with
  | Hw : dict_get weather "wind" (VDict []) = Return ?x,
    Hs : dict_get ?x "speed" VNone = Return _ |- _ =>
      destruct weather as [| | | | | |wd]; try discriminate Hwind;
      cbn in Hwind, Hw; rewrite Hwind in Hw; injection Hw as <-;
      rewrite (dict_get_not_dict _ _ _ Hnot) in Hs; discriminate Hs
  end.
Qed.

Lemma wind_not_an_object_fails_witness :
  process_and_save_data w_complete
    {| loc_id := "estadio"; loc_name := "Estadio";
       loc_lat := 8.30159931733102; loc_lon := -73.622763654179 |}
    (ApiSuccess sample_pollution weather_null_wind) [] = (Return false, []).
Proof.
  apply (wind_not_an_object_fails w_complete _ sample_pollution weather_null_wind []
           VNone).
  - reflexivity.
  - intros d. discriminate.
Defined.

(** X10: components that are there but are not an object (a null, a
    list) are found out late: with everything else in place, processing
    reads the clock, then fails on [components.get], and returns False
    without calling the sink. *)
Theorem components_not_an_object_fails w location air weather t
  e c a tmp hum prs ws :
  first_entry air = Some e ->
  field e "components" = Some c ->
  (forall d, c <> VDict d) ->
  index_field e = Some a ->
  weather_main weather "temp" = Some tmp ->
  weather_main weather "humidity" = Some hum ->
  weather_main weather "pressure" = Some prs ->
  wind_speed_of weather = Some ws ->
  process_and_save_data w location (ApiSuccess air weather) t =
    (Return false, [EvNow (utc_now w t)]).
Proof.
  intros Hfirst Hc Hnot Hidx Htmp Hhum Hprs Hwind.
  assert (Hmain : exists m, field weather "main" = Some m).
  { unfold weather_main in Htmp.
    destruct (field weather "main") as [m|]; [eauto|discriminate]. }
  destruct Hmain as (m & Hmain).
  destruct (first_entry_getitem _ _ Hfirst) as (l & Hl & He).
  pose proof (field_getitem _ _ _ Hc) as Hc'.
  destruct (index_field_getitem _ _ Hidx) as (m1 & Hm1 & Ha).
  destruct (weather_main_getitem _ _ _ _ Hmain Htmp) as [Hm Ht].
  destruct (weather_main_getitem _ _ _ _ Hmain Hhum) as [_ Hh].
  destruct (weather_main_getitem _ _ _ _ Hmain Hprs) as [_ Hp].
  destruct (wind_speed_of_get _ _ Hwind) as (wind & Hw & Hs).
  unfold process_and_save_data.
  change (api_getitem (ApiSuccess air weather) "air_quality") with (Return air).
  change (api_getitem (ApiSuccess air weather) "weather") with (Return weather).
  unfold try_except.
  repeat first
    [ rewrite bind_lift_return | rewrite Hl | rewrite He | rewrite Hc'
    | rewrite Hm1 | rewrite Ha | rewrite Hm | rewrite Ht | rewrite Hh
    | rewrite Hp | rewrite Hw | rewrite Hs ].
  unfold bind at 1. unfold now_utc_isoformat at 1. cbn beta iota zeta.
  rewrite (dict_get_not_dict _ _ _ Hnot), bind_lift_raise.
  reflexivity.
Qed.

Lemma components_not_an_object_fails_witness :
  process_and_save_data w_complete
    {| loc_id := "patinodromo"; loc_name := "Patinódromo";
       loc_lat := 8.297149888853758; loc_lon := -73.62335200184627 |}
    (ApiSuccess pollution_null_components sample_weather) [] =
  (Return false, [EvNow "2025-01-01T00:00:00+00:00"]).
Proof.
  apply (components_not_an_object_fails w_complete _
           pollution_null_components sample_weather []
           (VDict [("main", VDict [("aqi", VInt 2)]); ("components", VNone)])
           VNone (VInt 2) (VFloat 28.5) (VInt 70) (VInt 1012) (VFloat 3.5)).
  - reflexivity.
  - reflexivity.
  - intros d. discriminate.
  - reflexivity.
  - reflexivity.
  - reflexivity.
  - reflexivity.
  - reflexivity.
Defined.

(** X11: processing returns True exactly when the sink was called and
    answered True; a sink that answers False or raises, like every failure
    before the sink, gives False. *)
Theorem returns_true_iff_sink_accepted w location data t :
  (fst (process_and_save_data w location data t) = Return true
   <-> exists r, In (EvInsert r (Return true))
                   (snd (process_and_save_data w location data t)))
  /\ (fst (process_and_save_data w location data t) = Return false
      <-> forall r, ~ In (EvInsert r (Return true))
                        (snd (process_and_save_data w location data t))).
Proof.
  destruct (process_and_save_data_cases w location data t)
    as [H|[H|(r & H & _)]]; rewrite H; cbn [fst snd].
  - split; split.
    + discriminate.
    + intros (r & []).
    + intros _ r [].
    + reflexivity.
  - split; split.
    + discriminate.
    + intros (r & [E|[]]). discriminate E.
    + intros _ r [E|[]]. discriminate E.
    + reflexivity.
  - destruct (sink_insert w _ r) as [[|]|ex]; cbn [accepted]; split; split.
    + intros _. exists r. right; left. reflexivity.
    + reflexivity.
    + discriminate.
    + intros Hno. exfalso. apply (Hno r). right; left. reflexivity.
    + discriminate.
    + intros (r' & [E|[E|[]]]); discriminate E.
    + intros _ r' [E|[E|[]]]; discriminate E.
    + reflexivity.
    + discriminate.
    + intros (r' & [E|[E|[]]]); discriminate E.
    + intros _ r' [E|[E|[]]]; discriminate E.
    + reflexivity.
Qed.

(** X12: processing issues no request and takes no pause; it reads the
    clock at most once and calls the sink at most once, after the clock;
    a record it hands to the sink carries the id, the name and the
    coordinates of the location, and the clock reading as timestamp. *)
Theorem processing_effects_and_record w location data t :
  let evs := snd (process_and_save_data w location data t) in
  requested evs = [] /\ pauses evs = []
  /\ (evs = [] \/ evs = [EvNow (utc_now w t)]
      \/ exists r out, evs = [EvNow (utc_now w t); EvInsert r out]
                       /\ out = sink_insert w (t ++ [EvNow (utc_now w t)]) r)
  /\ (forall r, In r (inserted evs) ->
        location_id r = loc_id location
        /\ location_name r = loc_name location
        /\ lat r = loc_lat location
        /\ lon r = loc_lon location
        /\ timestamp r = utc_now w t).
Proof.
  cbv zeta.
  destruct (process_and_save_data_cases w location data t)
    as [H|[H|(r & H & Hid & Hname & Hlat & Hlon & Hts)]]; rewrite H; cbn [snd].
  - split; [reflexivity|]. split; [reflexivity|]. split.
    + left. reflexivity.
    + intros r [].
  - split; [reflexivity|]. split; [reflexivity|]. split.
    + right; left. reflexivity.
    + intros r [].
  - split; [reflexivity|]. split; [reflexivity|]. split.
    + right; right. exists r. eexists. split; reflexivity.
    + intros r' [<-|[]]. repeat split; assumption.
Qed.

(** * Further properties of the loop *)

Lemma requested_app (a b : list event) : requested (a ++ b) = requested a ++ requested b.
Proof.
  induction a as [|e a IH]; [reflexivity|].
  destruct e; cbn; rewrite IH; reflexivity.
Qed.

Lemma accepted_inserts_app (a b : list event) :
  accepted_inserts (a ++ b) = (accepted_inserts a + accepted_inserts b)%nat.
Proof.
  induction a as [|e a IH]; [reflexivity|].
  destruct e; cbn [app accepted_inserts]; try exact IH.
  destruct (accepted out); rewrite IH; reflexivity.
Qed.

(** What can be read off the events of one turn. *)
Lemma iteration_readings w self h location chunk ok :
  iteration w self h location chunk ok ->
  pauses chunk = [2]
  /\ requested chunk =
       air_request self (loc_lat location) (loc_lon location) ::
       (if responded (pollution_outcome w self (loc_lat location) (loc_lon location) h)
        then [weather_request self (loc_lat location) (loc_lon location)] else [])
  /\ accepted_inserts chunk = (if ok then 1 else 0)%nat
  /\ (responded (pollution_outcome w self (loc_lat location) (loc_lon location) h) = false ->
      ok = false /\ inserted chunk = []).
Proof.
  intros (d & fetch & store & Hget & -> & Hproc).
  rewrite get_air_quality_data_paths in Hget.
  assert (Hstore :
    pauses store = [] /\ requested store = []
    /\ accepted_inserts store = (if ok then 1 else 0)%nat
    /\ (success d = false -> ok = false /\ inserted store = [])).
  { destruct (success d) eqn:Hd.
    - destruct (process_and_save_data_cases w location d (h ++ fetch))
        as [H|[H|(r & H & _)]]; rewrite H in Hproc; injection Hproc as <- <-.
      + repeat split; discriminate.
      + repeat split; discriminate.
      + repeat split; discriminate.
    - destruct Hproc as [-> ->]. repeat split. }
  destruct Hstore as (Hsp & Hsr & Hsa & Hsf).
  rewrite !pauses_app, !requested_app, !accepted_inserts_app, !inserted_app, Hsp, Hsr, Hsa.
  destruct (pollution_outcome w self (loc_lat location) (loc_lon location) h);
    injection Hget as Hd <-; cbn [pauses requested accepted_inserts inserted app responded].
  - split; [reflexivity|]. split; [reflexivity|]. split; [destruct ok; reflexivity|].
    intros _. subst d. destruct (Hsf eq_refl) as [-> ->]. split; reflexivity.
  - split; [reflexivity|]. split; [reflexivity|]. split; [destruct ok; reflexivity|].
    intros _. subst d. destruct (Hsf eq_refl) as [-> ->]. split; reflexivity.
  - split; [reflexivity|]. split; [reflexivity|]. split; [destruct ok; reflexivity|].
    discriminate.
Qed.

Lemma iterations_all_false P h locs evs oks :
  iterations P h locs evs oks ->
  (forall h' l c b, P h' l c b -> b = false) ->
  count_true oks = 0 /\ count_false oks = Z.of_nat (List.length locs).
Proof.
  intros Hits Hfalse.
  induction Hits as [|h location rest chunk ok evs oks HP _ IH]; [split; reflexivity|].
  rewrite (Hfalse _ _ _ _ HP). destruct IH as [IHt IHf].
  unfold count_true, count_false in *. cbn [filter negb List.length].
  split; [exact IHt|lia].
Qed.




(** X16: when no request comes back with a response, a run fails every
    location: it returns (0, n), issues the pollution request of every
    location, in the order of the registry, and nothing else, and never
    calls the sink. *)
Theorem nothing_responds_all_fail w self t :
  (forall h req, responded (http_get w h req) = false) ->
  exists evs,
    collect_all_locations w self t =
      (Return (0, Z.of_nat (List.length (locations self))), evs)
    /\ requested evs =
       map (fun location => air_request self (loc_lat location) (loc_lon location))
         (locations self)
    /\ inserted evs = [].
Proof.
  intros Hdown.
  destruct (collect_loop_run w self (locations self) 0 0 t) as (evs & oks & Hrun & Hits).
  exists evs.
  assert (Hfalse : forall h l c b, iteration w self h l c b -> b = false).
  { intros h l c b Hit.
    destruct (iteration_readings _ _ _ _ _ _ Hit) as (_ & _ & _ & Hno).
    apply Hno. apply Hdown. }
  destruct (iterations_all_false _ _ _ _ _ Hits Hfalse) as [Ht Hf].
  unfold collect_all_locations. rewrite Hrun, Ht, Hf.
  split; [reflexivity|]. clear Hrun Ht Hf.
  induction Hits as [|h location rest chunk ok evs oks Hit _ IH]; [split; reflexivity|].
  destruct IH as [IHr IHi].
  destruct (iteration_readings _ _ _ _ _ _ Hit) as (_ & Hreq & _ & Hno).
  unfold pollution_outcome in Hreq, Hno.
  rewrite Hdown in Hreq. destruct (Hno (Hdown _ _)) as [_ Hins].
  rewrite requested_app, inserted_app, Hreq, Hins, IHr, IHi. split; reflexivity.
Qed.

Lemma nothing_responds_all_fail_witness :
  exists evs,
    collect_all_locations w_down (__init__ "key") [] =
      (Return (0, Z.of_nat (List.length (locations (__init__ "key")))), evs)
    /\ requested evs =
       map (fun location =>
              air_request (__init__ "key") (loc_lat location) (loc_lon location))
         (locations (__init__ "key"))
    /\ inserted evs = [].
Proof.
  apply (nothing_responds_all_fail w_down (__init__ "key") []).
  intros h req. reflexivity.
Defined.



Lemma collect_loop_nil w self s f h :
  collect_loop w self [] s f h = (Return (s, f), []).
Proof. reflexivity. Qed.

(** A turn is determined by the world, the history and the location. *)
Lemma iteration_deterministic w self h location c1 b1 c2 b2 :
  iteration w self h location c1 b1 ->
  iteration w self h location c2 b2 ->
  c1 = c2 /\ b1 = b2.
Proof.
  intros (d1 & f1 & s1 & Hg1 & -> & Hp1) (d2 & f2 & s2 & Hg2 & -> & Hp2).
  rewrite Hg1 in Hg2. injection Hg2 as <- <-.
  destruct (success d1).
  - rewrite Hp1 in Hp2. injection Hp2 as <- <-. split; reflexivity.
  - destruct Hp1 as [-> ->], Hp2 as [-> ->]. split; reflexivity.
Qed.

(** The counters a loop starts from are carried through unchanged. *)
Lemma collect_loop_counters w self locs : forall s f t s' f' evs,
  collect_loop w self locs 0 0 t = (Return (s', f'), evs) ->
  collect_loop w self locs s f t = (Return (s + s', f + f'), evs).
Proof.
  induction locs as [|location rest IH]; intros s f t s' f' evs H0.
  - rewrite collect_loop_nil in *. injection H0 as <- <- <-.
    rewrite !Z.add_0_r. reflexivity.
  - destruct (collect_loop_step w self location rest 0 0 t) as (c0 & b0 & Hit0 & Hs0).
    destruct (collect_loop_step w self location rest s f t) as (c & b & Hit & Hs).
    destruct (iteration_deterministic _ _ _ _ _ _ _ _ Hit Hit0) as [-> ->].
    destruct (collect_loop_run w self rest 0 0 (t ++ c0)) as (e & oks & Hrest & _).
    rewrite Hs0, (IH _ _ _ _ _ _ Hrest) in H0. cbn [fst snd] in H0.
    injection H0 as <- <- <-.
    rewrite Hs, (IH _ _ _ _ _ _ Hrest). cbn [fst snd].
    destruct b0; f_equal; f_equal; f_equal; lia.
Qed.

(** The loop uses of the collector its key and its base URL only. *)
Lemma collect_loop_same_endpoint w self1 self2 locs :
  api_key self1 = api_key self2 ->
  base_url self1 = base_url self2 ->
  forall s f t, collect_loop w self1 locs s f t = collect_loop w self2 locs s f t.
Proof.
  intros Hkey Hurl.
  assert (Hget : forall lat lon,
            get_air_quality_data w self1 lat lon = get_air_quality_data w self2 lat lon).
  { intros lat lon.
    unfold get_air_quality_data, air_url, weather_url, air_params, weather_params.
    rewrite Hkey, Hurl. reflexivity. }
  induction locs as [|location rest IH]; intros s f t; [reflexivity|].
  cbn [collect_loop]. rewrite Hget. unfold bind.
  destruct (get_air_quality_data w self2 (loc_lat location) (loc_lon location) t)
    as [[d|ex] fetch]; [|reflexivity].
  destruct (if success d then _ else _) as [[counters|ex] store]; [|reflexivity].
  unfold time_sleep. rewrite IH. reflexivity.
Qed.

(** X24: a run over a registry that is two registries one after the
    other is the run over the first followed by the run over the second,
    started from the history the first run leaves; the tallies add up and
    the events follow each other. *)
Theorem run_over_joined_registries w self1 self2 self t s1 f1 evs1 s2 f2 evs2 :
  api_key self1 = api_key self ->
  base_url self1 = base_url self ->
  api_key self2 = api_key self ->
  base_url self2 = base_url self ->
  locations self = locations self1 ++ locations self2 ->
  collect_all_locations w self1 t = (Return (s1, f1), evs1) ->
  collect_all_locations w self2 (t ++ evs1) = (Return (s2, f2), evs2) ->
  collect_all_locations w self t = (Return (s1 + s2, f1 + f2), evs1 ++ evs2).
Proof.
  intros Hk1 Hu1 Hk2 Hu2 Hlocs H1 H2.
  unfold collect_all_locations in *. rewrite Hlocs.
  rewrite (collect_loop_same_endpoint w self1 self _ Hk1 Hu1) in H1.
  rewrite (collect_loop_same_endpoint w self2 self _ Hk2 Hu2) in H2.
  clear Hk1 Hu1 Hk2 Hu2 Hlocs.
  revert t s1 f1 evs1 H1 H2.
  induction (locations self1) as [|location rest IH]; intros t s1 f1 evs1 H1 H2.
  - rewrite collect_loop_nil in H1. injection H1 as <- <- <-.
    rewrite app_nil_r in H2. exact H2.
  - destruct (collect_loop_step w self location rest 0 0 t) as (c & b & Hit & Hs).
    destruct (collect_loop_step w self location (rest ++ locations self2) 0 0 t)
      as (c' & b' & Hit' & Hs').
    destruct (iteration_deterministic _ _ _ _ _ _ _ _ Hit' Hit) as [-> ->].
    destruct (collect_loop_run w self rest 0 0 (t ++ c)) as (e & oks & Hrest & _).
    rewrite Hs, (collect_loop_counters _ _ _ _ _ _ _ _ _ Hrest) in H1.
    cbn [fst snd] in H1. injection H1 as <- <- <-.
    rewrite app_assoc in H2.
    pose proof (IH _ _ _ _ Hrest H2) as Hjoin.
    cbn [app]. rewrite Hs', (collect_loop_counters _ _ _ _ _ _ _ _ _ Hjoin).
    cbn [fst snd]. rewrite <- app_assoc.
    destruct b; f_equal; f_equal; f_equal; lia.
Qed.

Lemma run_over_joined_registries_witness :
  collect_all_locations w_complete two_points [] =
    (Return (1 + 1, 0 + 0),
     snd (collect_all_locations w_complete first_point []) ++
     snd (collect_all_locations w_complete second_point
            ([] ++ snd (collect_all_locations w_complete first_point [])))).
Proof.
  apply (run_over_joined_registries w_complete first_point second_point two_points []).
  - reflexivity.
  - reflexivity.
  - reflexivity.
  - reflexivity.
  - reflexivity.
  - vm_compute. reflexivity.
  - vm_compute. reflexivity.
Defined.

(** * Further properties of the single-location entry point *)

Lemma in_inserted r out (evs : list event) :
  In (EvInsert r out) evs -> In r (inserted evs).
Proof.
  induction evs as [|e evs IH]; [intros []|].
  intros [->|Hin]; [left; reflexivity|].
  destruct e; cbn; auto.
Qed.



(** The events of a fetch, whatever the decoder does: requests only. *)
Lemma get_air_quality_data_with_events dec w self lat lon t :
  exists res o more,
    get_air_quality_data_with dec w self lat lon t =
      (res, EvGet (air_request self lat lon) o :: more)
    /\ inserted (EvGet (air_request self lat lon) o :: more) = []
    /\ forall r out, ~ In (EvInsert r out) (EvGet (air_request self lat lon) o :: more).
Proof.
  rewrite get_air_quality_data_with_paths.
  destruct (pollution_outcome w self lat lon t) as [m|m|r1];
    eexists; eexists; eexists; (split; [reflexivity|]); (split; [reflexivity|]);
    intros r out Hin; apply in_inserted in Hin; exact Hin.
Qed.

(** X19: [collect_single_location] returns True exactly when the sink
    was called and answered True; it calls the sink at most once, and
    only with a record of the id it was asked for. This holds whatever
    the decoder does, also when an exception of the decoder escapes. *)
Theorem single_location_true_iff_sink_accepted dec w self id t :
  let run := collect_single_location_with dec w self id t in
  (fst run = Return true <-> exists r, In (EvInsert r (Return true)) (snd run))
  /\ (forall r, In r (inserted (snd run)) -> location_id r = id)
  /\ (List.length (inserted (snd run)) <= 1)%nat.
Proof.
  cbv zeta. unfold collect_single_location_with.
  destruct (find (fun loc => String.eqb (loc_id loc) id) (locations self))
    as [location|] eqn:F.
  - apply find_some in F. destruct F as [_ Hid]. apply String.eqb_eq in Hid.
    destruct (get_air_quality_data_with_events dec w self
                (loc_lat location) (loc_lon location) t)
      as (res & o & more & Hget & Hfi & Hnone).
    remember (EvGet (air_request self (loc_lat location) (loc_lon location)) o :: more)
      as fetch eqn:Hfetch.
    destruct res as [d|ex].
    + rewrite (bind_return _ _ _ _ _ Hget). cbn [fst snd].
      destruct (success d).
      * destruct (process_and_save_data_cases w location d (t ++ fetch))
          as [H|[H|(r & H & Hrid & _)]]; rewrite H; cbn [fst snd];
          rewrite inserted_app, Hfi; cbn [app inserted List.length].
        -- split; [|split; [intros r []|lia]].
           split; [discriminate|].
           intros (r & Hin). apply in_app_or in Hin.
           destruct Hin as [Hin|[]]. exfalso. exact (Hnone _ _ Hin).
        -- split; [|split; [intros r []|lia]].
           split; [discriminate|].
           intros (r & Hin). apply in_app_or in Hin.
           destruct Hin as [Hin|[E|[]]]; [exfalso; exact (Hnone _ _ Hin)|discriminate E].
        -- split; [|split; [intros r' [<-|[]]; congruence|lia]].
           destruct (sink_insert w _ r) as [[|]|ex]; cbn [accepted]; split.
           ++ intros _. exists r. apply in_or_app. right. right; left. reflexivity.
           ++ reflexivity.
           ++ discriminate.
           ++ intros (r' & Hin). apply in_app_or in Hin.
              destruct Hin as [Hin|[E|[E|[]]]];
                [exfalso; exact (Hnone _ _ Hin)|discriminate E|discriminate E].
           ++ discriminate.
           ++ intros (r' & Hin). apply in_app_or in Hin.
              destruct Hin as [Hin|[E|[E|[]]]];
                [exfalso; exact (Hnone _ _ Hin)|discriminate E|discriminate E].
      * unfold ret. cbn [fst snd]. rewrite app_nil_r, Hfi.
        split; [|split; [intros r []|cbn; lia]].
        split; [discriminate|].
        intros (r & Hin). exfalso. exact (Hnone _ _ Hin).
    + rewrite (bind_raise _ _ _ _ _ Hget). cbn [fst snd]. rewrite Hfi.
      split; [|split; [intros r []|cbn; lia]].
      split; [discriminate|].
      intros (r & Hin). exfalso. exact (Hnone _ _ Hin).
  - cbn [fst snd ret inserted List.length].
    split; [|split; [intros r []|lia]].
    split; [discriminate|intros (r & [])].
Qed.

(** * Where [main] takes the key from *)

(** X20: a non-empty environment variable wins: [main] builds the
    collector with it and does not open [config.json], so that a missing,
    unreadable or malformed file does no harm. *)
Theorem main_environment_key_wins env k :
  getenv_key env = Some k ->
  k <> "" ->
  main_api_key env = Return (Some (VStr k)).
Proof.
  intros Henv Hk. unfold main_api_key. rewrite Henv. cbv zeta.
  assert (E : truthy (VStr k) = true).
  { cbn. apply negb_true_iff, String.eqb_neq. exact Hk. }
  rewrite E. cbn [negb]. rewrite E. reflexivity.
Qed.

Lemma main_environment_key_wins_witness :
  main_api_key
    {| getenv_key := Some "0123456789abcdef";
       config_json := FileContent (InvalidJSON "Expecting value: line 1 column 1 (char 0)") |}
  = Return (Some (VStr "0123456789abcdef")).
Proof.
  apply (main_environment_key_wins
           {| getenv_key := Some "0123456789abcdef";
              config_json :=
                FileContent (InvalidJSON "Expecting value: line 1 column 1 (char 0)") |}).
  - reflexivity.
  - discriminate.
Defined.

(** X21: with the environment variable unset or empty, [main] takes the
    key from the object in [config.json]: the value under
    ['openweather_api_key'] when it is there and true; a key that is
    missing, null or empty leaves [main] without a key, and it returns
    without building a collector. *)
Theorem main_reads_key_from_config env d :
  getenv_key env = None \/ getenv_key env = Some "" ->
  config_json env = FileContent (ValidJSON (VDict d)) ->
  main_api_key env =
    Return
      (match dict_lookup d "openweather_api_key" with
       | Some k => if truthy k then Some k else None
       | None => None
       end).
Proof.
  intros Henv Hfile. unfold main_api_key. rewrite Hfile.
  destruct Henv as [-> | ->]; cbn;
    destruct (dict_lookup d "openweather_api_key") as [k|]; cbn;
    try reflexivity; destruct (truthy k); reflexivity.
Qed.

Lemma main_reads_key_from_config_witness :
  main_api_key
    {| getenv_key := None;
       config_json :=
         FileContent
           (ValidJSON (VDict [("openweather_api_key", VStr "0123456789abcdef")])) |}
  = Return (Some (VStr "0123456789abcdef")).
Proof.
  apply (main_reads_key_from_config
           {| getenv_key := None;
              config_json :=
                FileContent
                  (ValidJSON (VDict [("openweather_api_key", VStr "0123456789abcdef")])) |}
           [("openweather_api_key", VStr "0123456789abcdef")]).
  - left. reflexivity.
  - reflexivity.
Defined.

(** X22: with the environment variable unset or empty and no
    [config.json], [main] has no key and returns without building a
    collector; no exception is raised. *)
Theorem main_without_key_returns env :
  getenv_key env = None \/ getenv_key env = Some "" ->
  config_json env = FileNotFound ->
  main_api_key env = Return None.
Proof.
  intros Henv Hfile. unfold main_api_key. rewrite Hfile.
  destruct Henv as [-> | ->]; reflexivity.
Qed.

Lemma main_without_key_returns_witness :
  main_api_key {| getenv_key := Some ""; config_json := FileNotFound |} = Return None.
Proof.
  apply (main_without_key_returns {| getenv_key := Some ""; config_json := FileNotFound |}).
  - right. reflexivity.
  - reflexivity.
Defined.

(** X23: only a missing file is forgiven. With the environment variable
    unset or empty, a [config.json] that cannot be read, that is not
    JSON, or that holds JSON other than an object makes [main] end in an
    exception. *)
Theorem main_config_errors_escape env :
  getenv_key env = None \/ getenv_key env = Some "" ->
  (exists msg, config_json env = FileUnreadable msg)
  \/ (exists msg, config_json env = FileContent (InvalidJSON msg))
  \/ (exists j, config_json env = FileContent (ValidJSON j) /\ forall d, j <> VDict d) ->
  exists ex, main_api_key env = Raise ex.
Proof.
  intros Henv Hfile. unfold main_api_key. cbv zeta.
  assert (E : negb (truthy match getenv_key env with
                           | Some s => VStr s
                           | None => VNone
                           end) = true)
    by (destruct Henv as [-> | ->]; reflexivity).
  rewrite E.
  destruct Hfile as [(msg & ->)|[(msg & ->)|(j & -> & Hnot)]].
  - eexists. reflexivity.
  - eexists. reflexivity.
  - rewrite (dict_get_not_dict _ _ _ Hnot). eexists. reflexivity.
Qed.

Lemma main_config_errors_escape_witness :
  exists ex,
    main_api_key
      {| getenv_key := None;
         config_json := FileContent (ValidJSON (VList [VStr "0123456789abcdef"])) |}
    = Raise ex.
Proof.
  apply (main_config_errors_escape
           {| getenv_key := None;
              config_json := FileContent (ValidJSON (VList [VStr "0123456789abcdef"])) |}).
  - left. reflexivity.
  - right; right. exists (VList [VStr "0123456789abcdef"]).
    split; [reflexivity|]. intros d. discriminate.
Defined.
